(** * Verification of the [model_evaluate] DAG (dags/model_evaluate.py)

    The DAG has four tasks: [data_collect], [evaluate], [collect_metric] and
    [send_result].  They are embedded below as functions of a small
    trace-and-exception monad; the pandas, numpy and scikit-learn operations
    the tasks call are embedded next to them.

    Numbers: a float64 cell is either a finite value, kept exact as a
    rational, or NaN (pandas' missing value).  Rounding and infinities are
    outside the model. *)

From Stdlib Require Import QArith Qminmax.
From Stdlib Require Import Qpower Lqa.
From stdpp Require Import gmap strings list.

Open Scope Q_scope.

(** ** Python values *)

Inductive float64 : Type :=
| Finite (q : Q)
| NaN.

Definition isnan (x : float64) : bool :=
  match x with NaN => true | Finite _ => false end.

(** [x == y] on floats: NaN is equal to nothing. *)
Definition float_eq (x y : float64) : Prop :=
  match x, y with
  | Finite a, Finite b => a == b
  | _, _ => False
  end.

(** [x <= y] on floats: false as soon as one side is NaN. *)
Definition float_le (x y : float64) : Prop :=
  match x, y with
  | Finite a, Finite b => a <= b
  | _, _ => False
  end.

Definition float_sub (x y : float64) : float64 :=
  match x, y with
  | Finite a, Finite b => Finite (a - b)
  | _, _ => NaN
  end.

(** [np.maximum] and [np.minimum], the reductions behind [ndarray.max] and
    [ndarray.min]: NaN propagates. *)
Definition float_maximum (x y : float64) : float64 :=
  match x, y with
  | Finite a, Finite b => Finite (Qmax a b)
  | _, _ => NaN
  end.

Definition float_minimum (x y : float64) : float64 :=
  match x, y with
  | Finite a, Finite b => Finite (Qmin a b)
  | _, _ => NaN
  end.

(** Exceptions: the class name and the text [str(e)] gives. *)
Record exn : Type := Exception { exn_class : string; exn_str : string }.

Definition ValueError (msg : string) : exn := Exception "ValueError" msg.
Definition KeyError (msg : string) : exn := Exception "KeyError" msg.

(** The outcome of a Python call. *)
Inductive result (A : Type) : Type :=
| Returned (a : A)
| Raised (e : exn).
Arguments Returned {A} a.
Arguments Raised {A} e.

Global Instance result_ret : MRet result := λ A a, Returned a.
Global Instance result_bind : MBind result := λ A B k r,
  match r with
  | Returned a => k a
  | Raised e => Raised e
  end.

(** ** pandas and numpy *)

Definition label := nat.

(** A numeric [DataFrame]: the column names and the rows, each with its index
    label. *)
Record DataFrame : Type := {
  columns : list string;
  rows : list (label * list float64)
}.

(** A two-dimensional [ndarray] carries its shape, so an array with no rows
    still has a number of columns. *)
Record ndarray : Type := {
  shape : nat * nat;
  cells : list (list float64)
}.

Definition df_shape (df : DataFrame) : nat * nat :=
  (length (rows df), length (columns df)).

(** [df.values] *)
Definition values (df : DataFrame) : ndarray :=
  {| shape := df_shape df; cells := map snd (rows df) |}.

(** Every row has one cell per column. *)
Definition rectangular (df : DataFrame) : Prop :=
  Forall (λ r, length (snd r) = length (columns df)) (rows df).

(** No cell is NaN. *)
Definition all_finite (df : DataFrame) : Prop :=
  Forall (λ r, Forall (λ x, isnan x = false) (snd r)) (rows df).

Definition shape_eqb (s t : nat * nat) : bool :=
  Nat.eqb (fst s) (fst t) && Nat.eqb (snd s) (snd t).

(** [a - b] on arrays of one shape, cell by cell.  numpy would stretch a
    dimension of size one before it gives up; [evaluate] never gets that far
    with unequal shapes, [r2_score] having refused them. *)
Definition ndarray_sub (a b : ndarray) : result ndarray :=
  if shape_eqb (shape a) (shape b) then
    Returned {| shape := shape a;
                cells := zip_with (zip_with float_sub) (cells a) (cells b) |}
  else
    Raised (ValueError "operands could not be broadcast together").

(** [a.max()] and [a.min()] reduce over all the cells; an array without cells
    has no maximum. *)
Definition ndarray_max (a : ndarray) : result float64 :=
  match mjoin (cells a) with
  | [] => Raised (ValueError "zero-size array to reduction operation maximum which has no identity")
  | x :: xs => Returned (fold_left float_maximum xs x)
  end.

Definition ndarray_min (a : ndarray) : result float64 :=
  match mjoin (cells a) with
  | [] => Raised (ValueError "zero-size array to reduction operation minimum which has no identity")
  | x :: xs => Returned (fold_left float_minimum xs x)
  end.

(** ** scikit-learn

    [r2_score] and [mean_squared_error] of [sklearn.metrics], as [evaluate]
    calls them: two frames, no sample weights, ["uniform_average"] over the
    output columns.  The texts of the errors leave out the counts that the
    library prints in them. *)

Definition to_Q (x : float64) : option Q :=
  match x with Finite q => Some q | NaN => None end.

(** [check_consistent_length]: as many rows on both sides. *)
Definition check_consistent_length (a b : DataFrame) : result () :=
  if Nat.eqb (length (rows a)) (length (rows b)) then Returned ()
  else Raised (ValueError "Found input variables with inconsistent numbers of samples").

(** [check_array]: the cells as numbers; no NaN, at least one row and at
    least one column. *)
Definition check_array (df : DataFrame) : result (list (list Q)) :=
  match mapM (λ r, mapM to_Q (snd r)) (rows df) with
  | None => Raised (ValueError "Input contains NaN.")
  | Some a =>
      if Nat.ltb (length (rows df)) 1 then
        Raised (ValueError "Found array with 0 sample(s) while a minimum of 1 is required.")
      else if Nat.ltb (length (columns df)) 1 then
        Raised (ValueError "Found array with 0 feature(s) while a minimum of 1 is required.")
      else Returned a
  end.

Definition _check_reg_targets (y_true y_pred : DataFrame)
  : result (list (list Q) * list (list Q)) :=
  _ ← check_consistent_length y_true y_pred;
  yt ← check_array y_true;
  yp ← check_array y_pred;
  if Nat.eqb (length (columns y_true)) (length (columns y_pred)) then Returned (yt, yp)
  else Raised (ValueError "y_true and y_pred have different number of output").

Definition Qsum (l : list Q) : Q := foldr Qplus 0 l.

(** [np.average] of a vector. *)
Definition average (l : list Q) : Q := Qsum l / inject_Z (Z.of_nat (length l)).

(** Column [j] of a matrix given by its rows. *)
Definition column (j : nat) (a : list (list Q)) : list Q :=
  map (λ r, nth j r 0) a.

Definition squared_errors (yt yp : list Q) : list Q :=
  zip_with (λ t p, (t - p) ^ 2) yt yp.

Definition nonzero (x : Q) : bool := negb (Qeq_bool x 0).

(** The score of one output column: 1 - SS_res / SS_tot, and where SS_tot is
    zero, 1 for a perfect prediction and 0 for any other. *)
Definition r2_column (yt yp : list Q) : Q :=
  let numerator := Qsum (squared_errors yt yp) in
  let mean := average yt in
  let denominator := Qsum (map (λ t, (t - mean) ^ 2) yt) in
  if nonzero denominator && nonzero numerator then 1 - numerator / denominator
  else if nonzero numerator then 0
  else 1.

Definition r2_score (y_true y_pred : DataFrame) : result float64 :=
  '(yt, yp) ← _check_reg_targets y_true y_pred;
  if Nat.ltb (length yp) 2 then
    (* "R^2 score is not well-defined with less than two samples." *)
    Returned NaN
  else
    let n_outputs := length (columns y_true) in
    Returned (Finite (average
      (map (λ j, r2_column (column j yt) (column j yp)) (seq 0 n_outputs)))).

Definition mean_squared_error (y_true y_pred : DataFrame) : result float64 :=
  '(yt, yp) ← _check_reg_targets y_true y_pred;
  let n_outputs := length (columns y_true) in
  Returned (Finite (average
    (map (λ j, average (squared_errors (column j yt) (column j yp))) (seq 0 n_outputs)))).

(** ** Tasks and their effects *)

(** The metrics dict, in insertion order. *)
Definition metrics := list (string * float64).

Definition dict_get (k : string) (d : metrics) : option float64 :=
  snd <$> find (λ kv, bool_decide (fst kv = k)) d.

Definition keys (d : metrics) : list string := map fst d.

Definition identifier := string.

(** Modelled from the spec: [util] is not among the sources.  What [_GET_QA]
    returns is a table keyed by item, with a [mapping_uid] column next to
    the measured columns, the target columns among them. *)
Record qa_row : Type := {
  row_label : label;
  mapping_uid : identifier;
  measured : list float64
}.

Record qa_table : Type := {
  qa_columns : list string;
  qa_rows : list qa_row
}.

Record DagRun : Type := { run_id : string }.

Definition response := string.

(** The calls to the functions of [util]. *)
Inductive call : Type :=
| GET_PREDICTION (prediction_path : string) (targets_name : list string)
| GET_QA (date lot_id : string)
| LOG_METRIC (model_id : string) (m : metrics)
| SEND_RESULT (model_id : string) (dag_params : DagRun) (m : metrics).

(** What a task does besides returning: it prints lines, one of them with the
    metrics dict in it, and it calls out. *)
Inductive event : Type :=
| Print (text : string)
| PrintDict (text : string) (m : metrics)
| Call (c : call).

Definition trace := list event.

(** A task body: from the events so far to an outcome and the events then. *)
Definition M (A : Type) : Type := trace → result A * trace.

Global Instance M_ret : MRet M := λ A a tr, (Returned a, tr).
Global Instance M_bind : MBind M := λ A B k m tr,
  match m tr with
  | (Returned a, tr') => k a tr'
  | (Raised e, tr') => (Raised e, tr')
  end.

Definition print (text : string) : M () := λ tr, (Returned (), tr ++ [Print text]).
Definition print_dict (text : string) (m : metrics) : M () :=
  λ tr, (Returned (), tr ++ [PrintDict text m]).
Definition raise {A : Type} (e : exn) : M A := λ tr, (Raised e, tr).
Definition lift {A : Type} (r : result A) : M A := λ tr, (r, tr).

(** [try: body except Exception as e: handler e] *)
Definition try_except {A : Type} (body : M A) (handler : exn → M A) : M A := λ tr,
  match body tr with
  | (Returned a, tr') => (Returned a, tr')
  | (Raised e, tr') => handler e tr'
  end.

(** The parameters of a DAG run and the context of a task. *)
Record Params : Type := {
  model_id : string;
  prediction_path : string;
  date : string;
  lot_id : string;
  targets_name : list string
}.

Record Context : Type := {
  params : Params;
  dag_run : DagRun
}.

(** Modelled from the spec: the functions imported from [util], which is not
    among the sources, with the arguments the tasks give them and the
    results the tasks take from them.  What they answer may depend on all
    that has happened in the run so far. *)
Record Util : Type := {
  _GET_PREDICTION : trace → string → list string → result (DataFrame * list identifier);
  _GET_QA : trace → string → string → result qa_table;
  _LOG_METRIC : trace → string → metrics → result response;
  _SEND_RESULT : trace → string → DagRun → metrics → result response
}.

(** [ground_truth[targets_name]]: the named columns, in the order asked for;
    a name the table does not have is a [KeyError]. *)
Definition column_index (name : string) (cols : list string) : option nat :=
  fst <$> list_find (λ c, c = name) cols.

Definition getitem (t : qa_table) (names : list string) : result DataFrame :=
  match mapM (λ name, column_index name (qa_columns t)) names with
  | None => Raised (KeyError "not in index")
  | Some idx =>
      Returned {| columns := names;
                  rows := map (λ r, (row_label r, map (λ j, nth j (measured r) NaN) idx))
                              (qa_rows t) |}
  end.

(** [df.dropna()]: the rows without a NaN. *)
Definition complete (r : label * list float64) : Prop :=
  Forall (λ x, isnan x = false) (snd r).

Definition dropna (df : DataFrame) : DataFrame :=
  {| columns := columns df; rows := filter complete (rows df) |}.

(** The dict [data_collect] returns. *)
Record collected : Type := {
  prediction : DataFrame;
  ground_truth : DataFrame
}.

(** [set(uid) == set(g_uid)] *)
Definition uids_match (uid g_uid : list identifier) : bool :=
  bool_decide (list_to_set uid =@{gset identifier} list_to_set g_uid).

Definition uid_warning : string :=
  "Warning: The mapping_uids do not match between the prediction and ground_truth data.".

Section Tasks.

Variable util : Util.
Variable context : Context.

Definition get_current_context : M Context := mret context.

Definition call_GET_PREDICTION (path : string) (targets : list string)
  : M (DataFrame * list identifier) := λ tr,
  (_GET_PREDICTION util tr path targets, tr ++ [Call (GET_PREDICTION path targets)]).

Definition call_GET_QA (d lot : string) : M qa_table := λ tr,
  (_GET_QA util tr d lot, tr ++ [Call (GET_QA d lot)]).

Definition call_LOG_METRIC (model : string) (m : metrics) : M response := λ tr,
  (_LOG_METRIC util tr model m, tr ++ [Call (LOG_METRIC model m)]).

Definition call_SEND_RESULT (model : string) (run : DagRun) (m : metrics)
  : M response := λ tr,
  (_SEND_RESULT util tr model run m, tr ++ [Call (SEND_RESULT model run m)]).

(** [except Exception as e: print(f"Error in <task>: {str(e)}"); raise e] *)
Definition log_and_raise {A : Type} (task : string) (e : exn) : M A :=
  _ ← print ("Error in " +:+ task +:+ ": " +:+ exn_str e);
  raise e.

Definition data_collect_body : M collected :=
  context ← get_current_context;
  let params := params context in
  let prediction_path := prediction_path params in
  let date := date params in
  let lot_id := lot_id params in
  let targets_name := targets_name params in
  _ ← print ("Collecting prediction data from path: " +:+ prediction_path);
  '(prediction, uid) ← call_GET_PREDICTION prediction_path targets_name;
  _ ← print ("Collecting ground truth data for date: " +:+ date
              +:+ ", lot_id: " +:+ lot_id);
  ground_truth ← call_GET_QA date lot_id;
  let g_uid := map mapping_uid (qa_rows ground_truth) in
  ground_truth ← lift (getitem ground_truth targets_name);
  let ground_truth := dropna ground_truth in
  _ ← print "Checking if prediction and ground truth UIDs match";
  let uids_match := uids_match uid g_uid in
  _ ← (if negb uids_match then print uid_warning else mret ());
  mret {| prediction := prediction; ground_truth := ground_truth |}.

Definition data_collect : M collected :=
  try_except data_collect_body (log_and_raise "data_collect").

Definition evaluate_body (ground_truth prediction : DataFrame) : M metrics :=
  _ ← print "Calculating evaluation metrics";
  _r2_score ← lift (r2_score ground_truth prediction);
  _mse_score ← lift (mean_squared_error ground_truth prediction);
  errors ← lift (ndarray_sub (values prediction) (values ground_truth));
  _pos_max_err ← lift (ndarray_max errors);
  _neg_max_err ← lift (ndarray_min errors);
  let metrics := [("r2_score", _r2_score);
                  ("mse_score", _mse_score);
                  ("pos_max_err", _pos_max_err);
                  ("neg_max_err", _neg_max_err)] in
  _ ← print_dict "Evaluation metrics: " metrics;
  mret metrics.

Definition evaluate (ground_truth prediction : DataFrame) : M metrics :=
  try_except (evaluate_body ground_truth prediction) (log_and_raise "evaluate").

Definition collect_metric_body (metrics : metrics) : M response :=
  context ← get_current_context;
  let params := params context in
  let model_id := model_id params in
  _ ← print ("Logging metrics for model: " +:+ model_id);
  response ← call_LOG_METRIC model_id metrics;
  mret response.

Definition collect_metric (metrics : metrics) : M response :=
  try_except (collect_metric_body metrics) (log_and_raise "collect_metric").

Definition send_result_body (metrics : metrics) : M response :=
  context ← get_current_context;
  let params := params context in
  let model_id := model_id params in
  let dag_params := dag_run context in
  _ ← print ("Sending results for model: " +:+ model_id);
  response ← call_SEND_RESULT model_id dag_params metrics;
  mret response.

Definition send_result (metrics : metrics) : M response :=
  try_except (send_result_body metrics) (log_and_raise "send_result").

End Tasks.

(** ** The DAG

    [evaluate] takes the two outputs of [data_collect]; [collect_metric] and
    [send_result] both take the output of [evaluate] and nothing of each
    other, so the scheduler may run them in either order.  A task runs once
    all its upstream tasks have succeeded.  The success and failure
    callbacks of [util] only notify; they are left out. *)

Inductive task_state (A : Type) : Type :=
| success (a : A)
| failed (e : exn)
| upstream_failed.
Arguments success {A} a.
Arguments failed {A} e.
Arguments upstream_failed {A}.

Record dag_state : Type := {
  data_collect_state : task_state collected;
  evaluate_state : task_state metrics;
  collect_metric_state : task_state response;
  send_result_state : task_state response
}.

Inductive order : Type := collect_metric_first | send_result_first.

Definition run_task {A : Type} (task : M A) (tr : trace) : task_state A * trace :=
  match task tr with
  | (Returned a, tr') => (success a, tr')
  | (Raised e, tr') => (failed e, tr')
  end.

(** A task downstream of [up]: it gets the value [up] returned. *)
Definition run_downstream {A B : Type} (up : task_state A) (task : A → M B) (tr : trace)
  : task_state B * trace :=
  match up with
  | success a => run_task (task a) tr
  | _ => (upstream_failed, tr)
  end.

Definition model_evaluate (util : Util) (context : Context) (o : order) (tr : trace)
  : dag_state * trace :=
  let '(data_collect_result, tr) := run_task (data_collect util context) tr in
  let '(metrics, tr) :=
    run_downstream data_collect_result
      (λ d, evaluate (ground_truth d) (prediction d)) tr in
  match o with
  | collect_metric_first =>
      let '(collect_metric_response, tr) :=
        run_downstream metrics (collect_metric util context) tr in
      let '(send_result_response, tr) :=
        run_downstream metrics (send_result util context) tr in
      ({| data_collect_state := data_collect_result;
          evaluate_state := metrics;
          collect_metric_state := collect_metric_response;
          send_result_state := send_result_response |}, tr)
  | send_result_first =>
      let '(send_result_response, tr) :=
        run_downstream metrics (send_result util context) tr in
      let '(collect_metric_response, tr) :=
        run_downstream metrics (collect_metric util context) tr in
      ({| data_collect_state := data_collect_result;
          evaluate_state := metrics;
          collect_metric_state := collect_metric_response;
          send_result_state := send_result_response |}, tr)
  end.

(** ** Notions for the statements *)

(** The computation inside [evaluate], without the printing. *)
Definition evaluate_pure (ground_truth prediction : DataFrame) : result metrics :=
  _r2_score ← r2_score ground_truth prediction;
  _mse_score ← mean_squared_error ground_truth prediction;
  errors ← ndarray_sub (values prediction) (values ground_truth);
  _pos_max_err ← ndarray_max errors;
  _neg_max_err ← ndarray_min errors;
  Returned [("r2_score", _r2_score);
            ("mse_score", _mse_score);
            ("pos_max_err", _pos_max_err);
            ("neg_max_err", _neg_max_err)].

Definition unwrap (x : float64) : Q :=
  match x with Finite q => q | NaN => 0 end.

(** The cells of a frame as numbers. *)
Definition numbers (df : DataFrame) : list (list Q) :=
  map (λ r, map unwrap (snd r)) (rows df).

(** [df.iat[i, j]] *)
Definition iat (df : DataFrame) (i j : nat) : option float64 :=
  r ← rows df !! i; snd r !! j.

(** Two numeric frames of one shape with at least one cell. *)
Record comparable (gt pred : DataFrame) : Prop := {
  comparable_rectangular_l : rectangular gt;
  comparable_rectangular_r : rectangular pred;
  comparable_finite_l : all_finite gt;
  comparable_finite_r : all_finite pred;
  comparable_shape : df_shape gt = df_shape pred;
  comparable_rows : (1 ≤ length (rows gt))%nat;
  comparable_columns : (1 ≤ length (columns gt))%nat
}.

(** All the signed differences prediction - ground truth, row after row. *)
Definition differences (gt pred : DataFrame) : list Q :=
  mjoin (zip_with (zip_with Qminus) (numbers pred) (numbers gt)).

(** [R] relates every cell of the prediction to the cell of the ground truth
    at the same place. *)
Definition cellwise (R : Q → Q → Prop) (gt pred : DataFrame) : Prop :=
  Forall2 (Forall2 R) (numbers pred) (numbers gt).

Definition evaluate_trace (tr : trace) (m : metrics) : trace :=
  tr ++ [Print "Calculating evaluation metrics"; PrintDict "Evaluation metrics: " m].

(** [d] is the signed error of some cell. *)
Definition error_at (gt pred : DataFrame) (d : Q) : Prop :=
  ∃ i j p g, iat pred i j = Some (Finite p) ∧ iat gt i j = Some (Finite g) ∧ d = p - g.

Definition maximum_error (gt pred : DataFrame) (hi : Q) : Prop :=
  error_at gt pred hi ∧ ∀ d, error_at gt pred d → d <= hi.

Definition minimum_error (gt pred : DataFrame) (lo : Q) : Prop :=
  error_at gt pred lo ∧ ∀ d, error_at gt pred d → lo <= d.

(** The metrics of a perfect prediction. *)
Definition perfect (m : metrics) : Prop :=
  ∃ r2 mse hi lo,
    dict_get "r2_score" m = Some r2 ∧
    dict_get "mse_score" m = Some mse ∧
    dict_get "pos_max_err" m = Some hi ∧
    dict_get "neg_max_err" m = Some lo ∧
    float_eq r2 (Finite 1) ∧
    float_eq mse (Finite 0) ∧
    float_eq hi (Finite 0) ∧
    float_eq lo (Finite 0).

(** The events of [data_collect] up to each of its two calls. *)
Definition until_GET_PREDICTION (context : Context) : list event :=
  [Print ("Collecting prediction data from path: " +:+ prediction_path (params context))].

Definition until_GET_QA (context : Context) : list event :=
  until_GET_PREDICTION context ++
  [Call (GET_PREDICTION (prediction_path (params context)) (targets_name (params context)));
   Print ("Collecting ground truth data for date: " +:+ date (params context)
          +:+ ", lot_id: " +:+ lot_id (params context))].

Definition until_getitem (context : Context) : list event :=
  until_GET_QA context ++
  [Call (GET_QA (date (params context)) (lot_id (params context)))].

Definition error_line (task : string) (e : exn) : event :=
  Print ("Error in " +:+ task +:+ ": " +:+ exn_str e).

Definition uid_check (uid g_uid : list identifier) : list event :=
  Print "Checking if prediction and ground truth UIDs match"
  :: (if uids_match uid g_uid then [] else [Print uid_warning]).

(** Both fetches of [data_collect], started after [tr], answer. *)
Definition fetched (util : Util) (context : Context) (tr : trace)
    (pred : DataFrame) (uid : list identifier) (qa : qa_table) : Prop :=
  let p := params context in
  _GET_PREDICTION util (tr ++ until_GET_PREDICTION context)
    (prediction_path p) (targets_name p) = Returned (pred, uid) ∧
  _GET_QA util (tr ++ until_GET_QA context) (date p) (lot_id p) = Returned qa.

(** Row [r] of the table has no value in one of the columns [names]. *)
Definition missing_value (t : qa_table) (names : list string) (r : qa_row) : Prop :=
  ∃ name j, name ∈ names ∧ column_index name (qa_columns t) = Some j ∧
            measured r !! j = Some NaN.

Definition until_LOG_METRIC (context : Context) : list event :=
  [Print ("Logging metrics for model: " +:+ model_id (params context))].

Definition until_SEND_RESULT (context : Context) : list event :=
  [Print ("Sending results for model: " +:+ model_id (params context))].


(** The calls among the events. *)
Definition calls_of (tr : list event) : list call :=
  omap (λ ev, match ev with Call c => Some c | _ => None end) tr.

(** The dicts printed among the events. *)
Definition dicts_of (tr : list event) : list metrics :=
  omap (λ ev, match ev with PrintDict _ m => Some m | _ => None end) tr.

Definition successful (st : dag_state) : Prop :=
  match data_collect_state st, evaluate_state st,
        collect_metric_state st, send_result_state st with
  | success _, success _, success _, success _ => True
  | _, _, _, _ => False
  end.

(** The calls of the two last tasks with the metrics [m], in the order the
    tasks run. *)
Definition downstream_calls (context : Context) (o : order) (m : metrics) : list call :=
  let log := LOG_METRIC (model_id (params context)) m in
  let send := SEND_RESULT (model_id (params context)) (dag_run context) m in
  match o with
  | collect_metric_first => [log; send]
  | send_result_first => [send; log]
  end.

(** ** Further notions *)

(** Two lists of identifiers with the same elements, whatever their order
    and repetitions. *)
Definition same_elements (l k : list identifier) : Prop := ∀ x, x ∈ l ↔ x ∈ k.

(** The mean of the squared differences over all the cells. *)
Definition mean_squared_difference (gt pred : DataFrame) : Q :=
  Qsum (map (λ d, d ^ 2) (differences gt pred))
  / inject_Z (Z.of_nat (length (rows gt) * length (columns gt))).

(** The calls a run has made once [data_collect] is through. *)
Definition fetch_calls (context : Context) : list call :=
  [GET_PREDICTION (prediction_path (params context)) (targets_name (params context));
   GET_QA (date (params context)) (lot_id (params context))].

(** ** A run to compute with *)

Module Example.

Definition frame (cols : list string) (a : list (list Q)) : DataFrame :=
  {| columns := cols; rows := imap (λ i r, (i, map Finite r)) a |}.

Definition frame_of_rows (cols : list string) (a : list (label * list float64)) : DataFrame :=
  {| columns := cols; rows := a |}.

Definition targets : list string := ["ball_thickness"; "loop_height"].

Definition context : Context :=
  {| params := {| model_id := "multi_y_regressor";
                  prediction_path := "/predictions/multi_y_regressor/manual";
                  date := "2024-01-01";
                  lot_id := "ATWLOT-010124-0852-553-001";
                  targets_name := targets |};
     dag_run := {| run_id := "manual__2024-01-01" |} |}.

(** A [util] that answers with the given prediction and table. *)
Definition util (pred : DataFrame) (uids : list identifier) (qa : qa_table) : Util :=
  {| _GET_PREDICTION := λ _ _ _, Returned (pred, uids);
     _GET_QA := λ _ _ _, Returned qa;
     _LOG_METRIC := λ _ _ _, Returned "logged";
     _SEND_RESULT := λ _ _ _ _, Returned "sent" |}.

Definition square : DataFrame := frame targets [[1; 2]; [3; 4]].

(** [square] with one half added to every cell. *)
Definition shifted : DataFrame := frame targets [[3 # 2; 5 # 2]; [7 # 2; 9 # 2]].

Definition single : DataFrame := frame targets [[1; 2]].

Definition qa_square : qa_table :=
  {| qa_columns := "lot" :: targets;
     qa_rows := [ {| row_label := 0%nat; mapping_uid := "u0";
                     measured := [Finite 7; Finite 1; Finite 2] |};
                  {| row_label := 1%nat; mapping_uid := "u1";
                     measured := [Finite 7; Finite 3; Finite 4] |} ] |}.

(** The table of [qa_square] with the loop height of item [u1] missing. *)
Definition incomplete_row : qa_row :=
  {| row_label := 1%nat; mapping_uid := "u1"; measured := [Finite 7; Finite 3; NaN] |}.

Definition qa_missing : qa_table :=
  {| qa_columns := "lot" :: targets;
     qa_rows := [ {| row_label := 0%nat; mapping_uid := "u0";
                     measured := [Finite 7; Finite 1; Finite 2] |};
                  incomplete_row ] |}.

(** A server that does not answer. *)
Definition refused : exn := Exception "ConnectionError" "connection refused".

Definition util_no_prediction : Util :=
  {| _GET_PREDICTION := λ _ _ _, Raised refused;
     _GET_QA := λ _ _ _, Returned qa_square;
     _LOG_METRIC := λ _ _ _, Returned "logged";
     _SEND_RESULT := λ _ _ _ _, Returned "sent" |}.

Definition util_no_qa : Util :=
  {| _GET_PREDICTION := λ _ _ _, Returned (square, ["u0"; "u1"]);
     _GET_QA := λ _ _ _, Raised refused;
     _LOG_METRIC := λ _ _ _, Returned "logged";
     _SEND_RESULT := λ _ _ _ _, Returned "sent" |}.

(** The metrics endpoint refuses, the result endpoint answers. *)
Definition util_no_log : Util :=
  {| _GET_PREDICTION := λ _ _ _, Returned (square, ["u0"; "u1"]);
     _GET_QA := λ _ _ _, Returned qa_square;
     _LOG_METRIC := λ _ _ _, Raised refused;
     _SEND_RESULT := λ _ _ _ _, Returned "sent" |}.

(** A table without the loop height. *)
Definition qa_narrow : qa_table :=
  {| qa_columns := ["lot"; "ball_thickness"];
     qa_rows := [ {| row_label := 0%nat; mapping_uid := "u0";
                     measured := [Finite 7; Finite 1] |} ] |}.

(** [square] with a NaN in its last cell. *)
Definition holed : DataFrame :=
  frame_of_rows targets [(0%nat, [Finite 1; Finite 2]); (1%nat, [Finite 3; NaN])].

End Example.

(** * Properties *)

(** ** Rationals *)

Lemma Qsum_zero (l : list Q) : Forall (λ x, x == 0) l → Qsum l == 0.
Proof.
  induction 1 as [|x l Hx _ IH]; simpl; [reflexivity|].
  rewrite Hx, IH. reflexivity.
Qed.

Lemma Qsum_ones (n : nat) : Qsum (replicate n 1) == inject_Z (Z.of_nat n).
Proof.
  induction n as [|n IH]; [reflexivity|].
  cbn [replicate Qsum foldr]. fold (Qsum (replicate n 1)). rewrite IH.
  rewrite Nat2Z.inj_succ, <- Z.add_1_l, inject_Z_plus. reflexivity.
Qed.

Lemma inject_Z_of_nat_nonzero (n : nat) : (1 ≤ n)%nat → ¬ inject_Z (Z.of_nat n) == 0.
Proof.
  intros Hn H. unfold Qeq in H. simpl in H. lia.
Qed.

Lemma average_zero (l : list Q) : Forall (λ x, x == 0) l → average l == 0.
Proof.
  intros H. unfold average. rewrite (Qsum_zero _ H).
  unfold Qdiv. apply Qmult_0_l.
Qed.

Lemma average_ones (n : nat) : (1 ≤ n)%nat → average (replicate n 1) == 1.
Proof.
  intros Hn. unfold average. rewrite length_replicate, Qsum_ones.
  apply Qmult_inv_r, inject_Z_of_nat_nonzero, Hn.
Qed.

Lemma squared_errors_equal (yt yp : list Q) :
  Forall2 Qeq yt yp → Forall (λ x, x == 0) (squared_errors yt yp).
Proof.
  unfold squared_errors. induction 1 as [|t p yt yp Htp _ IH]; simpl; constructor; [|exact IH].
  rewrite Htp. simpl. ring.
Qed.

Lemma r2_column_equal (yt yp : list Q) : Forall2 Qeq yt yp → r2_column yt yp = 1.
Proof.
  intros H. unfold r2_column, nonzero.
  rewrite (Qeq_eq_bool _ _ (Qsum_zero _ (squared_errors_equal _ _ H))).
  simpl. rewrite andb_false_r. reflexivity.
Qed.

Lemma column_equal (j : nat) (a b : list (list Q)) :
  Forall2 (Forall2 Qeq) a b → Forall2 Qeq (column j a) (column j b).
Proof.
  unfold column. induction 1 as [|r s a b Hrs _ IH]; simpl; constructor; [|exact IH].
  clear IH. revert j. induction Hrs as [|x y r s Hxy _ IH]; intros [|j]; simpl;
    (reflexivity || done).
Qed.

Lemma map_seq_const {A : Type} (f : nat → A) (c : A) (start n : nat) :
  (∀ j, f j = c) → map f (seq start n) = replicate n c.
Proof.
  intros Hf. revert start. induction n as [|n IH]; intros start; simpl; [done|].
  by rewrite Hf, IH.
Qed.

(** ** What [evaluate] does, step by step *)

Lemma evaluate_unfold (gt pred : DataFrame) (tr : trace) :
  evaluate gt pred tr =
  match evaluate_pure gt pred with
  | Returned m =>
      (Returned m, tr ++ [Print "Calculating evaluation metrics";
                          PrintDict "Evaluation metrics: " m])
  | Raised e =>
      (Raised e, tr ++ [Print "Calculating evaluation metrics";
                        Print ("Error in evaluate: " +:+ exn_str e)])
  end.
Proof.
  unfold evaluate, try_except, evaluate_body, evaluate_pure, log_and_raise.
  unfold mbind, M_bind, result_bind, lift, print, print_dict, raise, mret, M_ret.
  destruct (r2_score gt pred) as [r2|e]; [|by rewrite <- app_assoc].
  destruct (mean_squared_error gt pred) as [mse|e]; [|by rewrite <- app_assoc].
  destruct (ndarray_sub (values pred) (values gt)) as [errors|e]; [|by rewrite <- app_assoc].
  destruct (ndarray_max errors) as [pos|e]; [|by rewrite <- app_assoc].
  destruct (ndarray_min errors) as [neg|e]; by rewrite <- app_assoc.
Qed.

(** ** Validation of the two frames *)

Lemma mapM_to_Q_finite (l : list float64) :
  Forall (λ x, isnan x = false) l → mapM to_Q l = Some (map unwrap l).
Proof.
  intros H. apply mapM_Some. induction H as [|x l Hx _ IH]; constructor; [|exact IH].
  by destruct x.
Qed.

Lemma mapM_rows_finite (df : DataFrame) :
  all_finite df → mapM (λ r, mapM to_Q (snd r)) (rows df) = Some (numbers df).
Proof.
  unfold all_finite, numbers. intros H. apply mapM_Some.
  induction H as [|r l Hr _ IH]; constructor; [|exact IH].
  by apply mapM_to_Q_finite.
Qed.

Lemma check_array_ok (df : DataFrame) :
  all_finite df → (1 ≤ length (rows df))%nat → (1 ≤ length (columns df))%nat →
  check_array df = Returned (numbers df).
Proof.
  intros Hfin Hr Hc. unfold check_array. rewrite (mapM_rows_finite _ Hfin).
  destruct (Nat.ltb_spec (length (rows df)) 1); [lia|].
  destruct (Nat.ltb_spec (length (columns df)) 1); [lia|]. done.
Qed.

Lemma check_array_raises_ValueError (df : DataFrame) (e : exn) :
  check_array df = Raised e → exn_class e = "ValueError".
Proof.
  unfold check_array. intros H.
  destruct (mapM _ _); [|by inversion H].
  destruct (Nat.ltb _ 1); [by inversion H|].
  destruct (Nat.ltb _ 1); by inversion H.
Qed.

Lemma check_reg_targets_ok (gt pred : DataFrame) :
  all_finite gt → all_finite pred → df_shape gt = df_shape pred →
  (1 ≤ length (rows gt))%nat → (1 ≤ length (columns gt))%nat →
  _check_reg_targets gt pred = Returned (numbers gt, numbers pred).
Proof.
  intros Hg Hp Hs Hr Hc. unfold df_shape in Hs. injection Hs as Hrows Hcols.
  unfold _check_reg_targets, check_consistent_length.
  rewrite Hrows, Nat.eqb_refl. simpl.
  rewrite (check_array_ok gt), (check_array_ok pred) by (done || lia). simpl.
  by rewrite Hcols, Nat.eqb_refl.
Qed.

Lemma check_reg_targets_mismatch (gt pred : DataFrame) :
  df_shape gt ≠ df_shape pred →
  ∃ e, _check_reg_targets gt pred = Raised e ∧ exn_class e = "ValueError".
Proof.
  intros Hs. unfold _check_reg_targets, check_consistent_length.
  destruct (Nat.eqb_spec (length (rows gt)) (length (rows pred))) as [Hrows|_];
    [|by eexists]. simpl.
  destruct (check_array gt) as [yt|e] eqn:Hgt;
    [|exists e; eauto using check_array_raises_ValueError]. simpl.
  destruct (check_array pred) as [yp|e] eqn:Hpred;
    [|exists e; eauto using check_array_raises_ValueError]. simpl.
  destruct (Nat.eqb_spec (length (columns gt)) (length (columns pred))) as [Hcols|_];
    [|by eexists].
  destruct Hs. unfold df_shape. congruence.
Qed.

(** ** Maximum and minimum of the errors *)

Lemma fold_maximum_finite (qs : list Q) (q : Q) :
  fold_left float_maximum (map Finite qs) (Finite q) = Finite (fold_left Qmax qs q).
Proof. revert q. induction qs as [|x qs IH]; intros q; [done|]. simpl. apply IH. Qed.

Lemma fold_minimum_finite (qs : list Q) (q : Q) :
  fold_left float_minimum (map Finite qs) (Finite q) = Finite (fold_left Qmin qs q).
Proof. revert q. induction qs as [|x qs IH]; intros q; [done|]. simpl. apply IH. Qed.

Lemma Qmax_cases (a b : Q) : Qmax a b = a ∨ Qmax a b = b.
Proof. unfold Qmax, GenericMinMax.gmax. destruct (a ?= b); auto. Qed.

Lemma Qmin_cases (a b : Q) : Qmin a b = a ∨ Qmin a b = b.
Proof. unfold Qmin, GenericMinMax.gmin. destruct (a ?= b); auto. Qed.

Lemma fold_Qmax_elem (qs : list Q) (q : Q) : fold_left Qmax qs q ∈ q :: qs.
Proof.
  revert q. induction qs as [|x qs IH]; intros q; simpl; [set_solver|].
  specialize (IH (Qmax q x)). rewrite !elem_of_cons in *.
  destruct IH as [IH|IH]; [|auto].
  rewrite IH. destruct (Qmax_cases q x) as [->| ->]; auto.
Qed.

Lemma fold_Qmin_elem (qs : list Q) (q : Q) : fold_left Qmin qs q ∈ q :: qs.
Proof.
  revert q. induction qs as [|x qs IH]; intros q; simpl; [set_solver|].
  specialize (IH (Qmin q x)). rewrite !elem_of_cons in *.
  destruct IH as [IH|IH]; [|auto].
  rewrite IH. destruct (Qmin_cases q x) as [->| ->]; auto.
Qed.

Lemma fold_Qmax_upper (qs : list Q) (q x : Q) : x ∈ q :: qs → x <= fold_left Qmax qs q.
Proof.
  revert q x. induction qs as [|y qs IH]; intros q x Hx; simpl.
  - apply list_elem_of_singleton in Hx as ->. apply Qle_refl.
  - apply elem_of_cons in Hx as [->|Hx].
    + apply Qle_trans with (Qmax q y); [apply Q.le_max_l|]. apply IH. set_solver.
    + apply elem_of_cons in Hx as [->|Hx].
      * apply Qle_trans with (Qmax q y); [apply Q.le_max_r|]. apply IH. set_solver.
      * apply IH. set_solver.
Qed.

Lemma fold_Qmin_lower (qs : list Q) (q x : Q) : x ∈ q :: qs → fold_left Qmin qs q <= x.
Proof.
  revert q x. induction qs as [|y qs IH]; intros q x Hx; simpl.
  - apply list_elem_of_singleton in Hx as ->. apply Qle_refl.
  - apply elem_of_cons in Hx as [->|Hx].
    + apply Qle_trans with (Qmin q y); [|apply Q.le_min_l]. apply IH. set_solver.
    + apply elem_of_cons in Hx as [->|Hx].
      * apply Qle_trans with (Qmin q y); [|apply Q.le_min_r]. apply IH. set_solver.
      * apply IH. set_solver.
Qed.

(** ** The error matrix of two comparable frames *)

Lemma zip_with_float_sub (l k : list float64) :
  Forall (λ x, isnan x = false) l → Forall (λ x, isnan x = false) k →
  zip_with float_sub l k = map Finite (zip_with Qminus (map unwrap l) (map unwrap k)).
Proof.
  intros Hl. revert k. induction Hl as [|x l Hx _ IH]; intros k Hk; [done|].
  destruct Hk as [|y k Hy Hk]; [done|]. simpl. rewrite (IH k Hk).
  by destruct x, y.
Qed.

Lemma join_fmap_Finite (a : list (list Q)) :
  mjoin (map (map Finite) a) = map Finite (mjoin a).
Proof.
  induction a as [|r a IH]; [done|]. simpl. by rewrite IH, fmap_app.
Qed.

Lemma errors_cells (gt pred : DataFrame) :
  all_finite gt → all_finite pred →
  mjoin (zip_with (zip_with float_sub) (map snd (rows pred)) (map snd (rows gt)))
  = map Finite (differences gt pred).
Proof.
  unfold all_finite, differences, numbers. intros Hg Hp.
  rewrite <- join_fmap_Finite. f_equal.
  revert Hg. generalize (rows gt). induction Hp as [|r l Hr _ IH]; intros k Hk; [done|].
  destruct Hk as [|s k Hs Hk]; [done|]. simpl. rewrite (IH k Hk).
  by rewrite (zip_with_float_sub _ _ Hr Hs).
Qed.

Lemma differences_nonempty (gt pred : DataFrame) :
  comparable gt pred → ∃ d ds, differences gt pred = d :: ds.
Proof.
  intros [Hrg Hrp _ _ Hs Hr Hc]. unfold df_shape in Hs. injection Hs as Hrows Hcols.
  unfold differences, numbers, rectangular in *.
  destruct (rows gt) as [|[lg rg] gs]; [simpl in Hr; lia|].
  destruct (rows pred) as [|[lp rp] ps]; [done|].
  apply Forall_cons_1 in Hrg as [Hg _]. apply Forall_cons_1 in Hrp as [Hp _].
  simpl in Hg, Hp.
  destruct rg as [|g rg]; [simpl in Hg; lia|].
  destruct rp as [|p rp]; [simpl in Hp; lia|].
  simpl. eauto.
Qed.

Lemma iat_numbers (df : DataFrame) (i j : nat) (q : Q) :
  all_finite df →
  iat df i j = Some (Finite q) ↔ ∃ r, numbers df !! i = Some r ∧ r !! j = Some q.
Proof.
  intros Hfin. unfold iat, numbers. rewrite list_lookup_fmap. split.
  - intros H. destruct (rows df !! i) as [r|]; [|done]. simpl in *.
    exists (map unwrap (snd r)). split; [done|].
    by rewrite list_lookup_fmap, H.
  - intros (r & Hr & Hq). destruct (rows df !! i) as [s|] eqn:Hs; [|done].
    simpl in *. injection Hr as <-. rewrite list_lookup_fmap in Hq.
    destruct (snd s !! j) as [x|] eqn:Hx; [|done]. simpl in Hq. injection Hq as <-.
    apply list_elem_of_lookup_2 in Hs. apply list_elem_of_lookup_2 in Hx.
    unfold all_finite in Hfin. rewrite Forall_forall in Hfin.
    specialize (Hfin s Hs). rewrite Forall_forall in Hfin. specialize (Hfin x Hx).
    by destruct x.
Qed.

Lemma elem_of_differences (gt pred : DataFrame) (d : Q) :
  all_finite gt → all_finite pred →
  d ∈ differences gt pred ↔
  ∃ i j p g, iat pred i j = Some (Finite p) ∧ iat gt i j = Some (Finite g) ∧ d = p - g.
Proof.
  intros Hg Hp. unfold differences. rewrite list_elem_of_join. split.
  - intros (l & Hd & Hl).
    apply elem_of_lookup_zip_with in Hl as (i & rp & rg & -> & Hrp & Hrg).
    apply elem_of_lookup_zip_with in Hd as (j & p & g & -> & Hpj & Hgj).
    exists i, j, p, g. rewrite !iat_numbers by done. eauto 8.
  - intros (i & j & p & g & Hpi & Hgi & ->).
    apply iat_numbers in Hpi as (rp & Hrp & Hpj); [|done].
    apply iat_numbers in Hgi as (rg & Hrg & Hgj); [|done].
    exists (zip_with Qminus rp rg). split.
    + apply elem_of_lookup_zip_with. eauto 8.
    + apply elem_of_lookup_zip_with. eauto 8.
Qed.

(** On comparable frames every step of [evaluate] goes through. *)
Lemma evaluate_pure_comparable (gt pred : DataFrame) :
  comparable gt pred →
  ∃ r2 mse d ds,
    r2_score gt pred = Returned r2 ∧
    mean_squared_error gt pred = Returned mse ∧
    differences gt pred = d :: ds ∧
    evaluate_pure gt pred =
      Returned [("r2_score", r2);
                ("mse_score", mse);
                ("pos_max_err", Finite (fold_left Qmax ds d));
                ("neg_max_err", Finite (fold_left Qmin ds d))].
Proof.
  intros Hc. destruct (differences_nonempty _ _ Hc) as (d & ds & Hd).
  destruct Hc as [_ _ Hg Hp Hs Hr Hcol].
  pose proof (check_reg_targets_ok gt pred Hg Hp Hs Hr Hcol) as Hck.
  assert (Hsub : ∀ r2 mse,
    (errors ← ndarray_sub (values pred) (values gt);
     pos ← ndarray_max errors;
     neg ← ndarray_min errors;
     Returned [("r2_score", r2); ("mse_score", mse);
               ("pos_max_err", pos); ("neg_max_err", neg)])
    = Returned [("r2_score", r2); ("mse_score", mse);
                ("pos_max_err", Finite (fold_left Qmax ds d));
                ("neg_max_err", Finite (fold_left Qmin ds d))]).
  { intros r2 mse. unfold ndarray_sub, values. simpl. rewrite <- Hs.
    unfold shape_eqb. rewrite !Nat.eqb_refl. simpl.
    unfold ndarray_max, ndarray_min. simpl.
    rewrite (errors_cells gt pred Hg Hp), Hd. simpl.
    by rewrite fold_maximum_finite, fold_minimum_finite. }
  unfold evaluate_pure, r2_score, mean_squared_error. rewrite Hck. simpl.
  destruct (Nat.ltb (length (numbers pred)) 2); simpl;
    do 2 eexists; exists d, ds; (split; [reflexivity|]); (split; [reflexivity|]);
    (split; [done|]); apply Hsub.
Qed.

Lemma differences_cellwise (R : Q → Q → Prop) (gt pred : DataFrame) :
  cellwise R gt pred →
  Forall (λ d, ∃ p g, R p g ∧ d = p - g) (differences gt pred).
Proof.
  unfold cellwise, differences.
  induction 1 as [|rp rg ps gs Hr _ IH]; simpl; [constructor|].
  apply Forall_app. split; [|exact IH]. clear IH.
  induction Hr as [|p g rp rg Hpg _ IH]; simpl; constructor; eauto.
Qed.

(** A constant offset [c] between the frames is the one value of all the
    differences, and so their maximum and their minimum. *)
Lemma offset_extrema (gt pred : DataFrame) (c d : Q) (ds : list Q) :
  cellwise (λ p g, p == g + c) gt pred →
  differences gt pred = d :: ds →
  fold_left Qmax ds d == c ∧ fold_left Qmin ds d == c.
Proof.
  intros Hcell Hd. pose proof (differences_cellwise _ _ _ Hcell) as Hall.
  rewrite Hd in Hall. rewrite Forall_forall in Hall.
  split.
  - destruct (Hall _ (fold_Qmax_elem ds d)) as (p & g & Hpg & ->). rewrite Hpg. ring.
  - destruct (Hall _ (fold_Qmin_elem ds d)) as (p & g & Hpg & ->). rewrite Hpg. ring.
Qed.

Lemma cellwise_equal_offset (gt pred : DataFrame) :
  cellwise Qeq gt pred → cellwise (λ p g, p == g + 0) gt pred.
Proof.
  unfold cellwise. intros H. eapply Forall2_impl; [exact H|].
  intros rp rg Hr. eapply Forall2_impl; [exact Hr|].
  intros p g Hpg. simpl. rewrite Hpg. ring.
Qed.

(** ** The evaluate task *)


Lemma square_comparable : comparable Example.square Example.square.
Proof. split; try (vm_compute; lia); repeat constructor. Qed.


(** The differences keep their sign: a prediction below the ground truth in
    every cell has a negative [pos_max_err]. *)
Lemma pos_max_err_negative :
  ∃ m tr hi,
    evaluate Example.shifted Example.square [] = (Returned m, tr) ∧
    dict_get "pos_max_err" m = Some (Finite hi) ∧
    hi < 0.
Proof. eexists _, _, _. split; [reflexivity|]. split; reflexivity. Qed.

(** C10: on two numeric frames of one shape with at least one cell, the
    metrics [evaluate] returns have [neg_max_err <= pos_max_err]. *)
Theorem evaluate_neg_le_pos (gt pred : DataFrame) (tr : trace) :
  comparable gt pred →
  ∃ m hi lo,
    evaluate gt pred tr = (Returned m, evaluate_trace tr m) ∧
    dict_get "pos_max_err" m = Some hi ∧
    dict_get "neg_max_err" m = Some lo ∧
    float_le lo hi.
Proof.
  intros Hc. destruct (evaluate_pure_comparable _ _ Hc) as (r2 & mse & d & ds & _ & _ & _ & Hev).
  eexists _, _, _. rewrite evaluate_unfold, Hev.
  split; [reflexivity|]. split; [reflexivity|]. split; [reflexivity|].
  simpl. apply Qle_trans with d.
  - apply fold_Qmin_lower, list_elem_of_here.
  - apply fold_Qmax_upper, list_elem_of_here.
Qed.

Lemma evaluate_neg_le_pos_witness :
  comparable Example.square Example.shifted ∧
  ∃ m hi lo,
    evaluate Example.square Example.shifted [] = (Returned m, evaluate_trace [] m) ∧
    dict_get "pos_max_err" m = Some hi ∧
    dict_get "neg_max_err" m = Some lo ∧
    float_le lo hi.
Proof.
  assert (H : comparable Example.square Example.shifted)
    by (split; try (vm_compute; lia); repeat constructor).
  split; [exact H|].
  exact (evaluate_neg_le_pos Example.square Example.shifted [] H).
Defined.



(** C4: when the shapes of the two frames differ, [r2_score], the first
    metric [evaluate] asks for, raises a [ValueError]; [evaluate] prints the
    error and raises it again, and no metrics dict comes out. *)
Theorem evaluate_shape_mismatch (gt pred : DataFrame) (tr : trace) :
  df_shape gt ≠ df_shape pred →
  ∃ e,
    exn_class e = "ValueError" ∧
    r2_score gt pred = Raised e ∧
    evaluate gt pred tr =
      (Raised e, tr ++ [Print "Calculating evaluation metrics";
                        Print ("Error in evaluate: " +:+ exn_str e)]).
Proof.
  intros Hs. destruct (check_reg_targets_mismatch _ _ Hs) as (e & He & Hcls).
  assert (Hr2 : r2_score gt pred = Raised e) by (unfold r2_score; by rewrite He).
  exists e. split; [done|]. split; [done|].
  rewrite evaluate_unfold. unfold evaluate_pure. by rewrite Hr2.
Qed.

Lemma evaluate_shape_mismatch_witness :
  df_shape Example.square ≠ df_shape Example.single ∧
  ∃ e,
    exn_class e = "ValueError" ∧
    r2_score Example.square Example.single = Raised e ∧
    evaluate Example.square Example.single [] =
      (Raised e, [] ++ [Print "Calculating evaluation metrics";
                        Print ("Error in evaluate: " +:+ exn_str e)]).
Proof.
  assert (H : df_shape Example.square ≠ df_shape Example.single) by (vm_compute; congruence).
  split; [exact H|].
  exact (evaluate_shape_mismatch Example.square Example.single [] H).
Defined.

(** *** Identical frames *)

Lemma Forall2_Qeq_sym (a b : list (list Q)) :
  Forall2 (Forall2 Qeq) a b → Forall2 (Forall2 Qeq) b a.
Proof.
  intros H. apply Forall2_flip. eapply Forall2_impl; [exact H|].
  intros r s Hrs. apply Forall2_flip. eapply Forall2_impl; [exact Hrs|].
  intros x y Hxy. by symmetry.
Qed.

Lemma r2_score_equal (gt pred : DataFrame) :
  comparable gt pred → (2 ≤ length (rows gt))%nat → cellwise Qeq gt pred →
  ∃ q, r2_score gt pred = Returned (Finite q) ∧ q == 1.
Proof.
  intros [_ _ Hg Hp Hs Hr Hc] H2 Hcell. unfold r2_score.
  rewrite (check_reg_targets_ok gt pred Hg Hp Hs Hr Hc). simpl.
  unfold df_shape in Hs. injection Hs as Hrows Hcols.
  assert (Hlen : length (numbers pred) = length (rows gt))
    by (unfold numbers; by rewrite length_map).
  rewrite Hlen. destruct (Nat.ltb_spec (length (rows gt)) 2); [lia|].
  eexists. split; [reflexivity|].
  rewrite (map_seq_const _ 1).
  - by apply average_ones.
  - intros j. apply r2_column_equal, column_equal, Forall2_Qeq_sym, Hcell.
Qed.

Lemma mean_squared_error_equal (gt pred : DataFrame) :
  comparable gt pred → cellwise Qeq gt pred →
  ∃ q, mean_squared_error gt pred = Returned (Finite q) ∧ q == 0.
Proof.
  intros [_ _ Hg Hp Hs Hr Hc] Hcell. unfold mean_squared_error.
  rewrite (check_reg_targets_ok gt pred Hg Hp Hs Hr Hc). simpl.
  eexists. split; [reflexivity|].
  apply average_zero, Forall_forall. intros x Hx.
  apply list_elem_of_fmap in Hx as (j & -> & _).
  apply average_zero, squared_errors_equal, column_equal, Forall2_Qeq_sym, Hcell.
Qed.

(** C2, amended: on two numeric frames of one shape with at least two rows
    and one column, the prediction equal to the ground truth cell by cell,
    [evaluate] returns [r2_score = 1], [mse_score = 0], [pos_max_err = 0]
    and [neg_max_err = 0]. *)
Theorem evaluate_identical (gt pred : DataFrame) (tr : trace) :
  comparable gt pred →
  (2 ≤ length (rows gt))%nat →
  cellwise Qeq gt pred →
  ∃ m, evaluate gt pred tr = (Returned m, evaluate_trace tr m) ∧ perfect m.
Proof.
  intros Hc H2 Hcell.
  destruct (evaluate_pure_comparable _ _ Hc) as (r2 & mse & d & ds & Hr2 & Hmse & Hd & Hev).
  destruct (r2_score_equal _ _ Hc H2 Hcell) as (q1 & Hq1 & Hone).
  destruct (mean_squared_error_equal _ _ Hc Hcell) as (q0 & Hq0 & Hzero).
  rewrite Hq1 in Hr2. injection Hr2 as <-. rewrite Hq0 in Hmse. injection Hmse as <-.
  destruct (offset_extrema _ _ 0 _ _ (cellwise_equal_offset _ _ Hcell) Hd) as [Hhi Hlo].
  eexists. rewrite evaluate_unfold, Hev. split; [reflexivity|].
  eexists _, _, _, _. repeat (split; [reflexivity|]). simpl. auto.
Qed.

Lemma evaluate_identical_witness :
  comparable Example.square Example.square ∧
  (2 ≤ length (rows Example.square))%nat ∧
  cellwise Qeq Example.square Example.square ∧
  ∃ m, evaluate Example.square Example.square [] = (Returned m, evaluate_trace [] m)
       ∧ perfect m.
Proof.
  assert (H2 : (2 ≤ length (rows Example.square))%nat) by (vm_compute; lia).
  assert (H3 : cellwise Qeq Example.square Example.square) by (repeat constructor).
  split; [exact square_comparable|]. split; [exact H2|]. split; [exact H3|].
  exact (evaluate_identical Example.square Example.square [] square_comparable H2 H3).
Defined.

(** C2 as stated fails on a frame of one row: [r2_score] then gives NaN,
    which is not 1. *)
Lemma one_row_r2_is_nan :
  comparable Example.single Example.single ∧
  cellwise Qeq Example.single Example.single ∧
  ¬ ∃ m tr', evaluate Example.single Example.single [] = (Returned m, tr') ∧ perfect m.
Proof.
  split; [split; try (vm_compute; lia); repeat constructor|].
  split; [repeat constructor|].
  intros (m & tr' & Hev & r2 & mse & hi & lo & Hr2 & _ & _ & _ & Hone & _).
  rewrite evaluate_unfold in Hev. vm_compute in Hev.
  injection Hev as <- _. vm_compute in Hr2. injection Hr2 as <-. exact Hone.
Qed.

(** Nor is there anything to return on frames without rows. *)
Lemma no_row_raises :
  let df := Example.frame Example.targets [] in
  ∃ e, ∀ tr, fst (evaluate df df tr) = Raised e.
Proof.
  eexists. intros tr. rewrite evaluate_unfold. reflexivity.
Qed.

(** ** The data_collect task *)

Lemma data_collect_unfold (util : Util) (context : Context) (tr : trace) :
  let p := params context in
  data_collect util context tr =
  match _GET_PREDICTION util (tr ++ until_GET_PREDICTION context)
          (prediction_path p) (targets_name p) with
  | Raised e =>
      (Raised e, tr ++ until_GET_PREDICTION context
                    ++ [Call (GET_PREDICTION (prediction_path p) (targets_name p));
                        error_line "data_collect" e])
  | Returned (pred, uid) =>
      match _GET_QA util (tr ++ until_GET_QA context) (date p) (lot_id p) with
      | Raised e => (Raised e, tr ++ until_getitem context ++ [error_line "data_collect" e])
      | Returned qa =>
          match getitem qa (targets_name p) with
          | Raised e => (Raised e, tr ++ until_getitem context ++ [error_line "data_collect" e])
          | Returned gt =>
              (Returned {| prediction := pred; ground_truth := dropna gt |},
               tr ++ until_getitem context
                  ++ uid_check uid (map mapping_uid (qa_rows qa)))
          end
      end
  end.
Proof.
  simpl. unfold data_collect, try_except, data_collect_body, log_and_raise, error_line.
  unfold get_current_context, call_GET_PREDICTION, call_GET_QA.
  unfold mbind, M_bind, lift, print, raise, mret, M_ret.
  unfold until_getitem, until_GET_QA, until_GET_PREDICTION, uid_check, uids_match.
  destruct (_GET_PREDICTION util _ _ _) as [[pred uid]|e]; simpl.
  2: { by rewrite <- !app_assoc. }
  rewrite <- !app_assoc. simpl.
  destruct (_GET_QA util _ _ _) as [qa|e]; simpl.
  2: { by rewrite <- !app_assoc. }
  destruct (getitem qa _) as [gt|e]; simpl.
  2: { by rewrite <- !app_assoc. }
  destruct (bool_decide _); simpl; by rewrite <- ?app_assoc.
Qed.

Lemma data_collect_returns (util : Util) (context : Context) (tr : trace)
    (pred : DataFrame) (uid : list identifier) (qa : qa_table) (gt : DataFrame) :
  fetched util context tr pred uid qa →
  getitem qa (targets_name (params context)) = Returned gt →
  data_collect util context tr =
    (Returned {| prediction := pred; ground_truth := dropna gt |},
     tr ++ until_getitem context ++ uid_check uid (map mapping_uid (qa_rows qa))).
Proof.
  intros [Hpred Hqa] Hgt. pose proof (data_collect_unfold util context tr) as H.
  simpl in H. by rewrite Hpred, Hqa, Hgt in H.
Qed.

Lemma uids_match_spec (uid g_uid : list identifier) :
  uids_match uid g_uid = true ↔ list_to_set uid =@{gset identifier} list_to_set g_uid.
Proof. unfold uids_match. apply bool_decide_eq_true. Qed.

Lemma uid_warning_printed (uid g_uid : list identifier) :
  Print uid_warning ∈ uid_check uid g_uid ↔
  list_to_set uid ≠@{gset identifier} list_to_set g_uid.
Proof.
  unfold uid_check. rewrite <- uids_match_spec.
  destruct (uids_match uid g_uid); rewrite ?elem_of_cons, ?elem_of_nil.
  - split; [intros [H|[]]; discriminate H | done].
  - split; [done | auto].
Qed.

(** C5: when the identifiers that come with the prediction are not the set
    of the [mapping_uid] of the ground truth, [data_collect] prints the
    warning and returns, the prediction as fetched and the ground truth as
    it is for any other identifiers. *)
Theorem data_collect_uid_mismatch (util : Util) (context : Context) (tr : trace)
    (pred : DataFrame) (uid : list identifier) (qa : qa_table) (gt : DataFrame) :
  fetched util context tr pred uid qa →
  getitem qa (targets_name (params context)) = Returned gt →
  list_to_set uid ≠@{gset identifier} list_to_set (map mapping_uid (qa_rows qa)) →
  data_collect util context tr =
    (Returned {| prediction := pred; ground_truth := dropna gt |},
     tr ++ until_getitem context
        ++ [Print "Checking if prediction and ground truth UIDs match";
            Print uid_warning]).
Proof.
  intros Hf Hgt Hne. rewrite (data_collect_returns _ _ _ _ _ _ _ Hf Hgt).
  unfold uid_check. destruct (uids_match uid _) eqn:E; [|done].
  by apply uids_match_spec in E.
Qed.

(** C9: the check compares the identifiers of the prediction with the
    [mapping_uid] of all the rows of the fetched table, the rows [dropna]
    removes among them: the warning is printed exactly when these two sets
    differ, whatever the cells of the table hold. *)
Theorem uid_check_before_dropna (util : Util) (context : Context) (tr : trace)
    (pred : DataFrame) (uid : list identifier) (qa : qa_table) (gt : DataFrame) :
  fetched util context tr pred uid qa →
  getitem qa (targets_name (params context)) = Returned gt →
  ∃ evs,
    data_collect util context tr =
      (Returned {| prediction := pred; ground_truth := dropna gt |},
       tr ++ until_getitem context ++ evs) ∧
    evs = uid_check uid (map mapping_uid (qa_rows qa)) ∧
    (Print uid_warning ∈ evs ↔
     list_to_set uid ≠@{gset identifier} list_to_set (map mapping_uid (qa_rows qa))) ∧
    (∀ util' qa' gt',
       fetched util' context tr pred uid qa' →
       getitem qa' (targets_name (params context)) = Returned gt' →
       map mapping_uid (qa_rows qa') = map mapping_uid (qa_rows qa) →
       snd (data_collect util' context tr) = tr ++ until_getitem context ++ evs).
Proof.
  intros Hf Hgt. eexists. split; [by apply data_collect_returns|].
  split; [done|]. split; [apply uid_warning_printed|].
  intros util' qa' gt' Hf' Hgt' Huid.
  by rewrite (data_collect_returns _ _ _ _ _ _ _ Hf' Hgt'), Huid.
Qed.

Lemma uid_sets_differ : list_to_set ["u0"; "u2"] ≠@{gset identifier} list_to_set ["u0"; "u1"].
Proof. intros H. apply uids_match_spec in H. vm_compute in H. discriminate H. Qed.

Lemma data_collect_uid_mismatch_witness :
  let util := Example.util Example.square ["u0"; "u2"] Example.qa_square in
  fetched util Example.context [] Example.square ["u0"; "u2"] Example.qa_square ∧
  getitem Example.qa_square (targets_name (params Example.context))
    = Returned Example.square ∧
  list_to_set ["u0"; "u2"]
    ≠@{gset identifier} list_to_set (map mapping_uid (qa_rows Example.qa_square)) ∧
  data_collect util Example.context [] =
    (Returned {| prediction := Example.square; ground_truth := dropna Example.square |},
     [] ++ until_getitem Example.context
        ++ [Print "Checking if prediction and ground truth UIDs match";
            Print uid_warning]).
Proof.
  intros util.
  assert (H1 : fetched util Example.context [] Example.square ["u0"; "u2"] Example.qa_square)
    by (split; reflexivity).
  assert (H2 : getitem Example.qa_square (targets_name (params Example.context))
               = Returned Example.square) by reflexivity.
  split; [exact H1|]. split; [exact H2|]. split; [exact uid_sets_differ|].
  exact (data_collect_uid_mismatch util Example.context [] Example.square ["u0"; "u2"]
           Example.qa_square Example.square H1 H2 uid_sets_differ).
Defined.

Lemma uid_check_before_dropna_witness :
  let util := Example.util Example.square ["u0"; "u1"] Example.qa_missing in
  let gt := Example.frame_of_rows Example.targets [(0%nat, [Finite 1; Finite 2]);
                                            (1%nat, [Finite 3; NaN])] in
  fetched util Example.context [] Example.square ["u0"; "u1"] Example.qa_missing ∧
  getitem Example.qa_missing (targets_name (params Example.context)) = Returned gt ∧
  ∃ evs,
    data_collect util Example.context [] =
      (Returned {| prediction := Example.square; ground_truth := dropna gt |},
       [] ++ until_getitem Example.context ++ evs) ∧
    evs = uid_check ["u0"; "u1"] (map mapping_uid (qa_rows Example.qa_missing)) ∧
    (Print uid_warning ∈ evs ↔
     list_to_set ["u0"; "u1"]
       ≠@{gset identifier} list_to_set (map mapping_uid (qa_rows Example.qa_missing))) ∧
    (∀ util' qa' gt',
       fetched util' Example.context [] Example.square ["u0"; "u1"] qa' →
       getitem qa' (targets_name (params Example.context)) = Returned gt' →
       map mapping_uid (qa_rows qa') = map mapping_uid (qa_rows Example.qa_missing) →
       snd (data_collect util' Example.context [])
       = [] ++ until_getitem Example.context ++ evs).
Proof.
  intros util gt.
  assert (H1 : fetched util Example.context [] Example.square ["u0"; "u1"] Example.qa_missing)
    by (split; reflexivity).
  assert (H2 : getitem Example.qa_missing (targets_name (params Example.context))
               = Returned gt) by reflexivity.
  split; [exact H1|]. split; [exact H2|].
  exact (uid_check_before_dropna util Example.context [] Example.square ["u0"; "u1"]
           Example.qa_missing gt H1 H2).
Defined.

(** The row of item [u1] is dropped from the ground truth, and the check
    still counts [u1]: no warning. *)
Lemma dropped_row_still_counts :
  let util := Example.util Example.square ["u0"; "u1"] Example.qa_missing in
  ∃ d evs,
    data_collect util Example.context [] = (Returned d, evs) ∧
    map fst (rows (ground_truth d)) = [0%nat] ∧
    Print uid_warning ∉ evs.
Proof.
  intros util. eexists _, _. split; [reflexivity|]. split; [reflexivity|].
  intros H. repeat (apply elem_of_cons in H as [H|H]; [discriminate H|]).
  by apply elem_of_nil in H.
Qed.

(** *** Rows with a missing value *)

(** What [getitem] makes of a row with a missing value is incomplete. *)
Lemma getitem_missing (t : qa_table) (names : list string) (r : qa_row) (gt : DataFrame) :
  getitem t names = Returned gt →
  r ∈ qa_rows t →
  missing_value t names r →
  length (rows gt) = length (qa_rows t) ∧
  ∃ x, x ∈ rows gt ∧ fst x = row_label r ∧ ¬ complete x.
Proof.
  unfold getitem. intros Hget Hr (name & j & Hname & Hj & HNaN).
  destruct (mapM _ names) as [idx|] eqn:Hidx; [|done]. injection Hget as <-. simpl.
  split; [by rewrite length_map|].
  exists (row_label r, map (λ j, nth j (measured r) NaN) idx).
  split; [|split; [done|]].
  - apply list_elem_of_fmap. by exists r.
  - unfold complete. simpl. rewrite Forall_forall. intros Hall.
    apply mapM_Some in Hidx. apply list_elem_of_lookup in Hname as [k Hk].
    destruct (Forall2_lookup_l _ _ _ _ _ Hidx Hk) as (j' & Hj' & Hcol).
    rewrite Hj in Hcol. injection Hcol as <-.
    specialize (Hall (nth j (measured r) NaN)).
    rewrite nth_lookup, HNaN in Hall. simpl in Hall.
    enough (true = false) by done.
    apply Hall, list_elem_of_fmap. exists j. split.
    + by rewrite nth_lookup, HNaN.
    + by apply list_elem_of_lookup_2 in Hj'.
Qed.

(** [evaluate] asks for as many rows on both sides. *)
Lemma evaluate_returns_same_length (gt pred : DataFrame) (tr tr' : trace) (m : metrics) :
  evaluate gt pred tr = (Returned m, tr') → length (rows gt) = length (rows pred).
Proof.
  rewrite evaluate_unfold. unfold evaluate_pure, r2_score, _check_reg_targets.
  unfold check_consistent_length.
  destruct (Nat.eqb_spec (length (rows gt)) (length (rows pred))); [done|].
  simpl. discriminate.
Qed.

Lemma evaluate_length_mismatch (gt pred : DataFrame) (tr : trace) :
  length (rows gt) ≠ length (rows pred) →
  ∃ e, exn_class e = "ValueError" ∧
       evaluate gt pred tr =
         (Raised e, tr ++ [Print "Calculating evaluation metrics";
                           Print ("Error in evaluate: " +:+ exn_str e)]).
Proof.
  intros Hne. rewrite evaluate_unfold. unfold evaluate_pure, r2_score, _check_reg_targets.
  unfold check_consistent_length.
  destruct (Nat.eqb_spec (length (rows gt)) (length (rows pred))); [done|].
  eexists. split; [|reflexivity]. reflexivity.
Qed.

(** C1, amended: when a row of the fetched table has no value in a target
    column, [data_collect] returns without an error and the ground truth it
    returns is the table's without that row.  [evaluate] then returns only if
    the prediction has as many rows as the ground truth has left; with a
    prediction of one row for each row of the table it raises a
    [ValueError]. *)
Theorem data_collect_drops_missing (util : Util) (context : Context) (tr : trace)
    (pred : DataFrame) (uid : list identifier) (qa : qa_table) (gt : DataFrame)
    (r : qa_row) :
  fetched util context tr pred uid qa →
  getitem qa (targets_name (params context)) = Returned gt →
  r ∈ qa_rows qa →
  missing_value qa (targets_name (params context)) r →
  mapping_uid r ∈ uid →
  ∃ d tr',
    data_collect util context tr = (Returned d, tr') ∧
    prediction d = pred ∧
    (∀ x, x ∈ rows (ground_truth d) ↔ x ∈ rows gt ∧ complete x) ∧
    (∃ x, x ∈ rows gt ∧ fst x = row_label r ∧ x ∉ rows (ground_truth d)) ∧
    (length (rows (ground_truth d)) < length (qa_rows qa))%nat ∧
    (∀ tr1 m tr2,
       evaluate (ground_truth d) (prediction d) tr1 = (Returned m, tr2) →
       length (rows pred) = length (rows (ground_truth d))) ∧
    (length (rows pred) = length (qa_rows qa) →
     ∀ tr1, ∃ e,
       exn_class e = "ValueError" ∧
       evaluate (ground_truth d) (prediction d) tr1 =
         (Raised e, tr1 ++ [Print "Calculating evaluation metrics";
                            Print ("Error in evaluate: " +:+ exn_str e)])).
Proof.
  intros Hf Hgt Hr Hmiss _.
  destruct (getitem_missing _ _ _ _ Hgt Hr Hmiss) as (Hlen & x & Hx & Hlabel & Hinc).
  eexists _, _. split; [by apply data_collect_returns|]. simpl.
  assert (Hlt : (length (filter complete (rows gt)) < length (qa_rows qa))%nat).
  { rewrite <- Hlen. by apply (length_filter_lt _ _ x). }
  split; [done|]. split; [intros y; rewrite list_elem_of_filter; tauto|].
  split; [exists x; rewrite list_elem_of_filter; tauto|].
  split; [done|]. split.
  - intros tr1 m tr2 Hev. by apply evaluate_returns_same_length in Hev.
  - intros Hpred tr1. apply evaluate_length_mismatch. simpl. lia.
Qed.

Lemma data_collect_drops_missing_witness :
  let util := Example.util Example.square ["u0"; "u1"] Example.qa_missing in
  let gt := Example.frame_of_rows Example.targets [(0%nat, [Finite 1; Finite 2]);
                                            (1%nat, [Finite 3; NaN])] in
  fetched util Example.context [] Example.square ["u0"; "u1"] Example.qa_missing ∧
  getitem Example.qa_missing (targets_name (params Example.context)) = Returned gt ∧
  Example.incomplete_row ∈ qa_rows Example.qa_missing ∧
  missing_value Example.qa_missing (targets_name (params Example.context))
    Example.incomplete_row ∧
  mapping_uid Example.incomplete_row ∈ ["u0"; "u1"] ∧
  ∃ d tr',
    data_collect util Example.context [] = (Returned d, tr') ∧
    prediction d = Example.square ∧
    (∀ x, x ∈ rows (ground_truth d) ↔ x ∈ rows gt ∧ complete x) ∧
    (∃ x, x ∈ rows gt ∧ fst x = row_label Example.incomplete_row
          ∧ x ∉ rows (ground_truth d)) ∧
    (length (rows (ground_truth d)) < length (qa_rows Example.qa_missing))%nat ∧
    (∀ tr1 m tr2,
       evaluate (ground_truth d) (prediction d) tr1 = (Returned m, tr2) →
       length (rows Example.square) = length (rows (ground_truth d))) ∧
    (length (rows Example.square) = length (qa_rows Example.qa_missing) →
     ∀ tr1, ∃ e,
       exn_class e = "ValueError" ∧
       evaluate (ground_truth d) (prediction d) tr1 =
         (Raised e, tr1 ++ [Print "Calculating evaluation metrics";
                            Print ("Error in evaluate: " +:+ exn_str e)])).
Proof.
  intros util gt.
  assert (H1 : fetched util Example.context [] Example.square ["u0"; "u1"] Example.qa_missing)
    by (split; reflexivity).
  assert (H2 : getitem Example.qa_missing (targets_name (params Example.context))
               = Returned gt) by reflexivity.
  assert (H3 : Example.incomplete_row ∈ qa_rows Example.qa_missing)
    by (apply list_elem_of_lookup; exists 1%nat; reflexivity).
  assert (H4 : missing_value Example.qa_missing (targets_name (params Example.context))
                 Example.incomplete_row).
  { exists "loop_height", 2%nat. split; [|split; reflexivity].
    apply list_elem_of_lookup. exists 1%nat. reflexivity. }
  assert (H5 : mapping_uid Example.incomplete_row ∈ ["u0"; "u1"])
    by (apply list_elem_of_lookup; exists 1%nat; reflexivity).
  repeat (split; [assumption|]).
  exact (data_collect_drops_missing util Example.context [] Example.square ["u0"; "u1"]
           Example.qa_missing gt Example.incomplete_row H1 H2 H3 H4 H5).
Defined.

(** C1 as stated fails: the table has a row without loop height, the
    prediction has a row for the same item, [data_collect] drops the row of
    the table, and [evaluate] fails on one row against two. *)
Lemma drop_then_evaluate_fails :
  let util := Example.util Example.square ["u0"; "u1"] Example.qa_missing in
  fetched util Example.context [] Example.square ["u0"; "u1"] Example.qa_missing ∧
  Example.incomplete_row ∈ qa_rows Example.qa_missing ∧
  missing_value Example.qa_missing (targets_name (params Example.context))
    Example.incomplete_row ∧
  mapping_uid Example.incomplete_row ∈ ["u0"; "u1"] ∧
  ∀ o, ∃ d e,
    data_collect_state (fst (model_evaluate util Example.context o [])) = success d ∧
    length (rows (ground_truth d)) = 1%nat ∧
    length (rows (prediction d)) = 2%nat ∧
    evaluate_state (fst (model_evaluate util Example.context o [])) = failed e ∧
    exn_class e = "ValueError".
Proof.
  intros util. split; [split; reflexivity|].
  split; [apply list_elem_of_lookup; exists 1%nat; reflexivity|].
  split.
  { exists "loop_height", 2%nat. split; [|split; reflexivity].
    apply list_elem_of_lookup. exists 1%nat. reflexivity. }
  split; [apply list_elem_of_lookup; exists 1%nat; reflexivity|].
  intros o. eexists _, _. destruct o; vm_compute; repeat split; reflexivity.
Qed.

(** ** The tasks that send the metrics *)

Lemma collect_metric_unfold (util : Util) (context : Context) (m : metrics) (tr : trace) :
  let model := model_id (params context) in
  collect_metric util context m tr =
  match _LOG_METRIC util (tr ++ until_LOG_METRIC context) model m with
  | Returned response =>
      (Returned response, tr ++ until_LOG_METRIC context ++ [Call (LOG_METRIC model m)])
  | Raised e =>
      (Raised e, tr ++ until_LOG_METRIC context
                    ++ [Call (LOG_METRIC model m); error_line "collect_metric" e])
  end.
Proof.
  simpl. unfold collect_metric, try_except, collect_metric_body, log_and_raise, error_line.
  unfold get_current_context, call_LOG_METRIC, until_LOG_METRIC.
  unfold mbind, M_bind, print, raise, mret, M_ret.
  destruct (_LOG_METRIC util _ _ _) as [response|e]; simpl; by rewrite <- !app_assoc.
Qed.

Lemma send_result_unfold (util : Util) (context : Context) (m : metrics) (tr : trace) :
  let model := model_id (params context) in
  send_result util context m tr =
  match _SEND_RESULT util (tr ++ until_SEND_RESULT context) model (dag_run context) m with
  | Returned response =>
      (Returned response,
       tr ++ until_SEND_RESULT context ++ [Call (SEND_RESULT model (dag_run context) m)])
  | Raised e =>
      (Raised e, tr ++ until_SEND_RESULT context
                    ++ [Call (SEND_RESULT model (dag_run context) m);
                        error_line "send_result" e])
  end.
Proof.
  simpl. unfold send_result, try_except, send_result_body, log_and_raise, error_line.
  unfold get_current_context, call_SEND_RESULT, until_SEND_RESULT.
  unfold mbind, M_bind, print, raise, mret, M_ret.
  destruct (_SEND_RESULT util _ _ _ _) as [response|e]; simpl; by rewrite <- !app_assoc.
Qed.

(** ** Errors inside a task *)

Lemma calls_of_app (tr evs : list event) : calls_of (tr ++ evs) = calls_of tr ++ calls_of evs.
Proof. apply omap_app. Qed.

Lemma calls_of_uid_check (uid g_uid : list identifier) : calls_of (uid_check uid g_uid) = [].
Proof. unfold uid_check. by destruct (uids_match uid g_uid). Qed.



(** ** A successful run *)

Lemma evaluate_pure_keys (gt pred : DataFrame) (m : metrics) :
  evaluate_pure gt pred = Returned m →
  keys m = ["r2_score"; "mse_score"; "pos_max_err"; "neg_max_err"].
Proof.
  unfold evaluate_pure. intros H.
  destruct (r2_score gt pred) as [r2|]; [|done]. simpl in H.
  destruct (mean_squared_error gt pred) as [mse|]; [|done]. simpl in H.
  destruct (ndarray_sub _ _) as [errors|]; [|done]. simpl in H.
  destruct (ndarray_max errors) as [pos|]; [|done]. simpl in H.
  destruct (ndarray_min errors) as [neg|]; [|done]. simpl in H.
  by injection H as <-.
Qed.

Lemma dicts_of_app (tr evs : list event) : dicts_of (tr ++ evs) = dicts_of tr ++ dicts_of evs.
Proof. apply omap_app. Qed.

Lemma dicts_of_uid_check (uid g_uid : list identifier) : dicts_of (uid_check uid g_uid) = [].
Proof. unfold uid_check. by destruct (uids_match uid g_uid). Qed.

(** What each task that returns has added to the events. *)
Lemma data_collect_events (util : Util) (context : Context) (tr tr' : trace)
    (d : collected) :
  data_collect util context tr = (Returned d, tr') →
  ∃ evs, tr' = tr ++ evs ∧
         calls_of evs =
           [GET_PREDICTION (prediction_path (params context)) (targets_name (params context));
            GET_QA (date (params context)) (lot_id (params context))] ∧
         dicts_of evs = [].
Proof.
  pose proof (data_collect_unfold util context tr) as H. cbv zeta in H. rewrite H. clear H.
  destruct (_GET_PREDICTION util _ _ _) as [[pred uid]|e]; [|done].
  destruct (_GET_QA util _ _ _) as [qa|e]; [|done].
  destruct (getitem qa _) as [gt|e]; [|done].
  intros Heq. apply pair_equal_spec in Heq as [_ <-]. eexists. split; [reflexivity|].
  by rewrite dicts_of_app, calls_of_app, dicts_of_uid_check, calls_of_uid_check.
Qed.

Lemma evaluate_events (gt pred : DataFrame) (tr tr' : trace) (m : metrics) :
  evaluate gt pred tr = (Returned m, tr') →
  evaluate_pure gt pred = Returned m ∧
  ∃ evs, tr' = tr ++ evs ∧ calls_of evs = [] ∧ dicts_of evs = [m].
Proof.
  rewrite evaluate_unfold. destruct (evaluate_pure gt pred) as [m'|e]; [|done].
  intros [= -> <-]. split; [done|]. by eexists.
Qed.

Lemma collect_metric_events (util : Util) (context : Context) (m : metrics)
    (tr tr' : trace) (r : response) :
  collect_metric util context m tr = (Returned r, tr') →
  ∃ evs, tr' = tr ++ evs ∧
         calls_of evs = [LOG_METRIC (model_id (params context)) m] ∧
         dicts_of evs = [].
Proof.
  pose proof (collect_metric_unfold util context m tr) as H. cbv zeta in H. rewrite H.
  destruct (_LOG_METRIC util _ _ _) as [r'|e]; [|done].
  intros [= _ <-]. by eexists.
Qed.

Lemma send_result_events (util : Util) (context : Context) (m : metrics)
    (tr tr' : trace) (r : response) :
  send_result util context m tr = (Returned r, tr') →
  ∃ evs, tr' = tr ++ evs ∧
         calls_of evs = [SEND_RESULT (model_id (params context)) (dag_run context) m] ∧
         dicts_of evs = [].
Proof.
  pose proof (send_result_unfold util context m tr) as H. cbv zeta in H. rewrite H.
  destruct (_SEND_RESULT util _ _ _ _) as [r'|e]; [|done].
  intros [= _ <-]. by eexists.
Qed.

(** A successful run, task by task. *)
Lemma model_evaluate_successful (util : Util) (context : Context) (o : order) (tr : trace) :
  successful (fst (model_evaluate util context o tr)) →
  ∃ d tr1 m tr2 r1 r2 tr3 tr4,
    data_collect util context tr = (Returned d, tr1) ∧
    evaluate (ground_truth d) (prediction d) tr1 = (Returned m, tr2) ∧
    match o with
    | collect_metric_first =>
        collect_metric util context m tr2 = (Returned r1, tr3) ∧
        send_result util context m tr3 = (Returned r2, tr4)
    | send_result_first =>
        send_result util context m tr2 = (Returned r2, tr3) ∧
        collect_metric util context m tr3 = (Returned r1, tr4)
    end ∧
    model_evaluate util context o tr =
      ({| data_collect_state := success d;
          evaluate_state := success m;
          collect_metric_state := success r1;
          send_result_state := success r2 |}, tr4).
Proof.
  unfold successful, model_evaluate, run_downstream, run_task.
  destruct (data_collect util context tr) as [[d|e] tr1] eqn:Hdc; [|by destruct o].
  destruct (evaluate (ground_truth d) (prediction d) tr1) as [[m|e] tr2] eqn:Hev;
    [|by destruct o].
  destruct o.
  - destruct (collect_metric util context m tr2) as [[r1|e1] tr3] eqn:Hcm;
      destruct (send_result util context m tr3) as [[r2|e2] tr4] eqn:Hsr; try done.
    intros _. by exists d, tr1, m, tr2, r1, r2, tr3, tr4.
  - destruct (send_result util context m tr2) as [[r2|e2] tr3] eqn:Hsr;
      destruct (collect_metric util context m tr3) as [[r1|e1] tr4] eqn:Hcm; try done.
    intros _. by exists d, tr1, m, tr2, r1, r2, tr3, tr4.
Qed.

(** C7: in a run where the four tasks succeed, [evaluate] returns one dict,
    with the keys [r2_score], [mse_score], [pos_max_err] and [neg_max_err]
    and no other; [_LOG_METRIC] and [_SEND_RESULT] are each called once, with
    that dict, whichever of the two tasks runs first and whatever the other
    was answered. *)
Theorem successful_run_metrics (util : Util) (context : Context) (o : order)
    (tr : trace) :
  successful (fst (model_evaluate util context o tr)) →
  ∃ d m evs,
    data_collect_state (fst (model_evaluate util context o tr)) = success d ∧
    evaluate_state (fst (model_evaluate util context o tr)) = success m ∧
    evaluate_pure (ground_truth d) (prediction d) = Returned m ∧
    keys m = ["r2_score"; "mse_score"; "pos_max_err"; "neg_max_err"] ∧
    snd (model_evaluate util context o tr) = tr ++ evs ∧
    dicts_of evs = [m] ∧
    calls_of evs =
      [GET_PREDICTION (prediction_path (params context)) (targets_name (params context));
       GET_QA (date (params context)) (lot_id (params context))]
      ++ downstream_calls context o m.
Proof.
  intros Hok.
  destruct (model_evaluate_successful _ _ _ _ Hok)
    as (d & tr1 & m & tr2 & r1 & r2 & tr3 & tr4 & Hdc & Hev & Hlast & Hrun).
  rewrite Hrun. cbn [fst snd data_collect_state evaluate_state].
  apply data_collect_events in Hdc as (evs1 & -> & Hc1 & Hd1).
  apply evaluate_events in Hev as (Hpure & evs2 & -> & Hc2 & Hd2).
  exists d, m.
  destruct o; destruct Hlast as [H1 H2].
  - apply collect_metric_events in H1 as (evs3 & -> & Hc3 & Hd3).
    apply send_result_events in H2 as (evs4 & -> & Hc4 & Hd4).
    exists (evs1 ++ evs2 ++ evs3 ++ evs4).
    split; [done|]. split; [done|]. split; [done|].
    split; [by apply evaluate_pure_keys in Hpure|].
    split; [by rewrite <- !app_assoc|].
    rewrite !dicts_of_app, !calls_of_app, Hc1, Hc2, Hc3, Hc4, Hd1, Hd2, Hd3, Hd4.
    split; reflexivity.
  - apply send_result_events in H1 as (evs3 & -> & Hc3 & Hd3).
    apply collect_metric_events in H2 as (evs4 & -> & Hc4 & Hd4).
    exists (evs1 ++ evs2 ++ evs3 ++ evs4).
    split; [done|]. split; [done|]. split; [done|].
    split; [by apply evaluate_pure_keys in Hpure|].
    split; [by rewrite <- !app_assoc|].
    rewrite !dicts_of_app, !calls_of_app, Hc1, Hc2, Hc3, Hc4, Hd1, Hd2, Hd3, Hd4.
    split; reflexivity.
Qed.

Lemma successful_run_metrics_witness :
  let util := Example.util Example.square ["u0"; "u1"] Example.qa_square in
  successful (fst (model_evaluate util Example.context send_result_first [])) ∧
  ∃ d m evs,
    data_collect_state (fst (model_evaluate util Example.context send_result_first []))
      = success d ∧
    evaluate_state (fst (model_evaluate util Example.context send_result_first []))
      = success m ∧
    evaluate_pure (ground_truth d) (prediction d) = Returned m ∧
    keys m = ["r2_score"; "mse_score"; "pos_max_err"; "neg_max_err"] ∧
    snd (model_evaluate util Example.context send_result_first []) = [] ++ evs ∧
    dicts_of evs = [m] ∧
    calls_of evs =
      [GET_PREDICTION (prediction_path (params Example.context))
         (targets_name (params Example.context));
       GET_QA (date (params Example.context)) (lot_id (params Example.context))]
      ++ downstream_calls Example.context send_result_first m.
Proof.
  intros util.
  assert (H : successful (fst (model_evaluate util Example.context send_result_first [])))
    by (vm_compute; exact I).
  split; [exact H|].
  exact (successful_run_metrics util Example.context send_result_first [] H).
Defined.


(** * Further properties *)

(** ** Where [data_collect] stops *)

(** When the prediction cannot be fetched, [data_collect] raises the error
    of [_GET_PREDICTION] and the ground truth is never asked for. *)
Theorem data_collect_prediction_failure (util : Util) (context : Context)
    (tr : trace) (e : exn) :
  _GET_PREDICTION util (tr ++ until_GET_PREDICTION context)
    (prediction_path (params context)) (targets_name (params context)) = Raised e →
  data_collect util context tr =
    (Raised e,
     tr ++ until_GET_PREDICTION context
        ++ [Call (GET_PREDICTION (prediction_path (params context))
                                 (targets_name (params context)));
            error_line "data_collect" e]) ∧
  calls_of (snd (data_collect util context tr)) =
    calls_of tr ++ [GET_PREDICTION (prediction_path (params context))
                                   (targets_name (params context))].
Proof.
  intros He. pose proof (data_collect_unfold util context tr) as H. cbv zeta in H.
  rewrite He in H. rewrite H. split; [done|].
  cbn [snd]. by rewrite !calls_of_app.
Qed.

Lemma data_collect_prediction_failure_witness :
  _GET_PREDICTION Example.util_no_prediction ([] ++ until_GET_PREDICTION Example.context)
    (prediction_path (params Example.context)) (targets_name (params Example.context))
    = Raised Example.refused ∧
  data_collect Example.util_no_prediction Example.context [] =
    (Raised Example.refused,
     [] ++ until_GET_PREDICTION Example.context
        ++ [Call (GET_PREDICTION (prediction_path (params Example.context))
                                 (targets_name (params Example.context)));
            error_line "data_collect" Example.refused]) ∧
  calls_of (snd (data_collect Example.util_no_prediction Example.context [])) =
    calls_of [] ++ [GET_PREDICTION (prediction_path (params Example.context))
                                   (targets_name (params Example.context))].
Proof.
  split; [reflexivity|].
  exact (data_collect_prediction_failure Example.util_no_prediction Example.context []
           Example.refused eq_refl).
Defined.

(** When the prediction is there and the ground truth cannot be fetched,
    [data_collect] raises the error of [_GET_QA]; the identifiers are not
    compared. *)
Theorem data_collect_ground_truth_failure (util : Util) (context : Context)
    (tr : trace) (pred : DataFrame) (uid : list identifier) (e : exn) :
  _GET_PREDICTION util (tr ++ until_GET_PREDICTION context)
    (prediction_path (params context)) (targets_name (params context))
    = Returned (pred, uid) →
  _GET_QA util (tr ++ until_GET_QA context)
    (date (params context)) (lot_id (params context)) = Raised e →
  data_collect util context tr =
    (Raised e, tr ++ until_getitem context ++ [error_line "data_collect" e]).
Proof.
  intros Hp He. pose proof (data_collect_unfold util context tr) as H. cbv zeta in H.
  by rewrite Hp, He in H.
Qed.

Lemma data_collect_ground_truth_failure_witness :
  _GET_PREDICTION Example.util_no_qa ([] ++ until_GET_PREDICTION Example.context)
    (prediction_path (params Example.context)) (targets_name (params Example.context))
    = Returned (Example.square, ["u0"; "u1"]) ∧
  _GET_QA Example.util_no_qa ([] ++ until_GET_QA Example.context)
    (date (params Example.context)) (lot_id (params Example.context))
    = Raised Example.refused ∧
  data_collect Example.util_no_qa Example.context [] =
    (Raised Example.refused,
     [] ++ until_getitem Example.context ++ [error_line "data_collect" Example.refused]).
Proof.
  split; [reflexivity|]. split; [reflexivity|].
  exact (data_collect_ground_truth_failure Example.util_no_qa Example.context []
           Example.square ["u0"; "u1"] Example.refused eq_refl eq_refl).
Defined.

(** ** The columns asked for *)

Lemma column_index_None (name : string) (cols : list string) :
  column_index name cols = None ↔ name ∉ cols.
Proof.
  unfold column_index. rewrite fmap_None, list_find_None, Forall_forall. split.
  - intros H Hin. by apply (H name).
  - intros H x Hx ->. done.
Qed.


Lemma getitem_KeyError (t : qa_table) (names : list string) (name : string) :
  name ∈ names → name ∉ qa_columns t →
  getitem t names = Raised (KeyError "not in index").
Proof.
  intros Hname Hcol. unfold getitem.
  assert (H : mapM (λ name, column_index name (qa_columns t)) names = None).
  { apply mapM_None, Exists_exists. exists name. split; [done|].
    by apply column_index_None. }
  by rewrite H.
Qed.

(** A target name that is no column of the fetched table is a [KeyError]:
    [data_collect] raises it after both fetches, and the identifiers are not
    compared. *)
Theorem data_collect_missing_column (util : Util) (context : Context) (tr : trace)
    (pred : DataFrame) (uid : list identifier) (qa : qa_table) (name : string) :
  fetched util context tr pred uid qa →
  name ∈ targets_name (params context) →
  name ∉ qa_columns qa →
  ∃ e,
    exn_class e = "KeyError" ∧
    data_collect util context tr =
      (Raised e, tr ++ until_getitem context ++ [error_line "data_collect" e]).
Proof.
  intros [Hp Hq] Hname Hcol. exists (KeyError "not in index"). split; [done|].
  pose proof (data_collect_unfold util context tr) as H. cbv zeta in H.
  by rewrite Hp, Hq, (getitem_KeyError _ _ _ Hname Hcol) in H.
Qed.

Lemma data_collect_missing_column_witness :
  let util := Example.util Example.square ["u0"] Example.qa_narrow in
  fetched util Example.context [] Example.square ["u0"] Example.qa_narrow ∧
  "loop_height" ∈ targets_name (params Example.context) ∧
  ("loop_height" ∉ qa_columns Example.qa_narrow) ∧
  ∃ e,
    exn_class e = "KeyError" ∧
    data_collect util Example.context [] =
      (Raised e, [] ++ until_getitem Example.context ++ [error_line "data_collect" e]).
Proof.
  intros util.
  assert (H1 : fetched util Example.context [] Example.square ["u0"] Example.qa_narrow)
    by (split; reflexivity).
  assert (H2 : "loop_height" ∈ targets_name (params Example.context))
    by (apply list_elem_of_lookup; exists 1%nat; reflexivity).
  assert (H3 : "loop_height" ∉ qa_columns Example.qa_narrow).
  { intros H. repeat (apply elem_of_cons in H as [H|H]; [discriminate H|]).
    by apply elem_of_nil in H. }
  split; [exact H1|]. split; [exact H2|]. split; [exact H3|].
  exact (data_collect_missing_column util Example.context [] Example.square ["u0"]
           Example.qa_narrow "loop_height" H1 H2 H3).
Defined.

(** ** The ground truth [data_collect] returns *)

Lemma filter_complete_all (l : list (label * list float64)) :
  Forall complete l → filter complete l = l.
Proof.
  induction 1 as [|x l Hx _ IH]; [done|].
  by rewrite filter_cons_True, IH.
Qed.





(** When no row of the selected columns has a NaN, [dropna] drops nothing:
    the ground truth [data_collect] returns is the table's target columns,
    row for row. *)
Theorem data_collect_keeps_complete_table (util : Util) (context : Context) (tr : trace)
    (pred : DataFrame) (uid : list identifier) (qa : qa_table) (gt : DataFrame) :
  fetched util context tr pred uid qa →
  getitem qa (targets_name (params context)) = Returned gt →
  all_finite gt →
  ∃ d tr',
    data_collect util context tr = (Returned d, tr') ∧
    ground_truth d = gt ∧
    map fst (rows (ground_truth d)) = map row_label (qa_rows qa).
Proof.
  intros Hf Hget Hfin. eexists _, _.
  split; [by apply (data_collect_returns _ _ _ _ _ _ _ Hf Hget)|].
  cbn [ground_truth]. unfold dropna. rewrite (filter_complete_all _ Hfin).
  split; [by destruct gt|].
  unfold getitem in Hget. destruct (mapM _ _) as [idx|]; [|done].
  injection Hget as <-. cbn [rows]. by rewrite <- list_fmap_compose.
Qed.

Lemma data_collect_keeps_complete_table_witness :
  let util := Example.util Example.square ["u0"; "u1"] Example.qa_square in
  fetched util Example.context [] Example.square ["u0"; "u1"] Example.qa_square ∧
  getitem Example.qa_square (targets_name (params Example.context))
    = Returned Example.square ∧
  all_finite Example.square ∧
  ∃ d tr',
    data_collect util Example.context [] = (Returned d, tr') ∧
    ground_truth d = Example.square ∧
    map fst (rows (ground_truth d)) = map row_label (qa_rows Example.qa_square).
Proof.
  intros util.
  assert (H1 : fetched util Example.context [] Example.square ["u0"; "u1"] Example.qa_square)
    by (split; reflexivity).
  assert (H2 : getitem Example.qa_square (targets_name (params Example.context))
               = Returned Example.square) by reflexivity.
  assert (H3 : all_finite Example.square) by (repeat constructor).
  split; [exact H1|]. split; [exact H2|]. split; [exact H3|].
  exact (data_collect_keeps_complete_table util Example.context [] Example.square
           ["u0"; "u1"] Example.qa_square Example.square H1 H2 H3).
Defined.

(** ** The comparison of the identifiers *)

Lemma uids_match_same_elements (uid g_uid : list identifier) :
  uids_match uid g_uid = true ↔ same_elements uid g_uid.
Proof.
  rewrite uids_match_spec, set_eq. unfold same_elements.
  by setoid_rewrite elem_of_list_to_set.
Qed.

(** The identifiers are compared as sets: [data_collect] prints no warning
    exactly when the identifiers of the prediction and the [mapping_uid] of
    the table have the same elements, in whatever order and however often
    repeated. *)
Theorem uid_check_ignores_order_and_repeats (util : Util) (context : Context)
    (tr : trace) (pred : DataFrame) (uid : list identifier) (qa : qa_table)
    (gt : DataFrame) :
  fetched util context tr pred uid qa →
  getitem qa (targets_name (params context)) = Returned gt →
  snd (data_collect util context tr)
  = tr ++ until_getitem context
       ++ [Print "Checking if prediction and ground truth UIDs match"]
  ↔ same_elements uid (map mapping_uid (qa_rows qa)).
Proof.
  intros Hf Hget. rewrite (data_collect_returns _ _ _ _ _ _ _ Hf Hget). cbn [snd].
  rewrite <- uids_match_same_elements. unfold uid_check.
  destruct (uids_match uid _); split; try done.
  intros H. apply app_inv_head in H. apply app_inv_head in H. discriminate H.
Qed.

Lemma uid_check_ignores_order_and_repeats_witness :
  let util := Example.util Example.square ["u1"; "u0"; "u1"] Example.qa_square in
  fetched util Example.context [] Example.square ["u1"; "u0"; "u1"] Example.qa_square ∧
  getitem Example.qa_square (targets_name (params Example.context))
    = Returned Example.square ∧
  (snd (data_collect util Example.context [])
   = [] ++ until_getitem Example.context
        ++ [Print "Checking if prediction and ground truth UIDs match"]
   ↔ same_elements ["u1"; "u0"; "u1"] (map mapping_uid (qa_rows Example.qa_square))).
Proof.
  intros util.
  assert (H1 : fetched util Example.context [] Example.square ["u1"; "u0"; "u1"]
                 Example.qa_square) by (split; reflexivity).
  assert (H2 : getitem Example.qa_square (targets_name (params Example.context))
               = Returned Example.square) by reflexivity.
  split; [exact H1|]. split; [exact H2|].
  exact (uid_check_ignores_order_and_repeats util Example.context [] Example.square
           ["u1"; "u0"; "u1"] Example.qa_square Example.square H1 H2).
Defined.

(** ** When [evaluate] returns *)

Lemma mapM_to_Q_Some (l : list float64) (qs : list Q) :
  mapM to_Q l = Some qs → Forall (λ x, isnan x = false) l.
Proof.
  intros H. apply mapM_Some in H.
  induction H as [|x q l qs Hx _ IH]; constructor; [|exact IH].
  by destruct x.
Qed.

Lemma check_array_Returned (df : DataFrame) (a : list (list Q)) :
  check_array df = Returned a →
  all_finite df ∧ (1 ≤ length (rows df))%nat ∧ (1 ≤ length (columns df))%nat.
Proof.
  unfold check_array. destruct (mapM _ (rows df)) as [a'|] eqn:Ha; [|done].
  destruct (Nat.ltb_spec (length (rows df)) 1); [done|].
  destruct (Nat.ltb_spec (length (columns df)) 1); [done|].
  intros _. split; [|done].
  apply mapM_Some in Ha. unfold all_finite. apply Forall_forall. intros r Hr.
  apply list_elem_of_lookup in Hr as [i Hi].
  destruct (Forall2_lookup_l _ _ _ _ _ Ha Hi) as (qs & _ & Hqs).
  by apply mapM_to_Q_Some in Hqs.
Qed.

Lemma check_reg_targets_Returned (gt pred : DataFrame) (p : list (list Q) * list (list Q)) :
  _check_reg_targets gt pred = Returned p →
  all_finite gt ∧ all_finite pred ∧ df_shape gt = df_shape pred ∧
  (1 ≤ length (rows gt))%nat ∧ (1 ≤ length (columns gt))%nat.
Proof.
  unfold _check_reg_targets, check_consistent_length.
  destruct (Nat.eqb_spec (length (rows gt)) (length (rows pred))) as [Hrows|]; [|done].
  simpl. destruct (check_array gt) as [yt|] eqn:Hgt; [|done]. simpl.
  destruct (check_array pred) as [yp|] eqn:Hpred; [|done]. simpl.
  destruct (Nat.eqb_spec (length (columns gt)) (length (columns pred))) as [Hcols|]; [|done].
  intros _. apply check_array_Returned in Hgt as (Hg & Hr & Hc).
  apply check_array_Returned in Hpred as (Hp & _ & _).
  repeat split; try done. unfold df_shape. congruence.
Qed.

Lemma check_reg_targets_ValueError (gt pred : DataFrame) (e : exn) :
  _check_reg_targets gt pred = Raised e → exn_class e = "ValueError".
Proof.
  unfold _check_reg_targets, check_consistent_length.
  destruct (Nat.eqb (length (rows gt)) (length (rows pred))); [|by intros [= <-]].
  simpl. destruct (check_array gt) as [yt|e1] eqn:Hgt; simpl.
  2: { intros [= <-]. by apply check_array_raises_ValueError in Hgt. }
  destruct (check_array pred) as [yp|e2] eqn:Hpred; simpl.
  2: { intros [= <-]. by apply check_array_raises_ValueError in Hpred. }
  destruct (Nat.eqb (length (columns gt)) (length (columns pred))); [done|by intros [= <-]].
Qed.

Lemma evaluate_pure_Returned (gt pred : DataFrame) (m : metrics) :
  evaluate_pure gt pred = Returned m →
  all_finite gt ∧ all_finite pred ∧ df_shape gt = df_shape pred ∧
  (1 ≤ length (rows gt))%nat ∧ (1 ≤ length (columns gt))%nat.
Proof.
  unfold evaluate_pure, r2_score. intros H.
  destruct (_check_reg_targets gt pred) as [p|] eqn:Hck; [|done].
  by apply check_reg_targets_Returned in Hck.
Qed.

Lemma evaluate_pure_ValueError (gt pred : DataFrame) (e : exn) :
  evaluate_pure gt pred = Raised e → exn_class e = "ValueError".
Proof.
  unfold evaluate_pure, r2_score, mean_squared_error.
  destruct (_check_reg_targets gt pred) as [[yt yp]|e1] eqn:Hck; simpl.
  2: { intros [= <-]. by apply check_reg_targets_ValueError in Hck. }
  destruct (Nat.ltb (length yp) 2); simpl.
  all: unfold ndarray_sub; destruct (shape_eqb _ _); simpl; [|by intros [= <-]].
  all: unfold ndarray_max, ndarray_min; simpl.
  all: destruct (mjoin _); simpl; [by intros [= <-]|done].
Qed.

(** On frames with one cell per column in every row, [evaluate] returns a
    metrics dict exactly when both frames are free of NaN, have the same
    shape and have at least one row and one column. *)
Theorem evaluate_returns_iff_comparable (gt pred : DataFrame) (tr : trace) :
  rectangular gt →
  rectangular pred →
  (∃ m tr', evaluate gt pred tr = (Returned m, tr')) ↔ comparable gt pred.
Proof.
  intros Hrg Hrp. rewrite evaluate_unfold. split.
  - intros (m & tr' & H). destruct (evaluate_pure gt pred) as [m'|] eqn:Hev; [|done].
    apply evaluate_pure_Returned in Hev as (? & ? & ? & ? & ?). by split.
  - intros Hc. destruct (evaluate_pure_comparable _ _ Hc) as (? & ? & ? & ? & _ & _ & _ & ->).
    by eexists _, _.
Qed.

Lemma evaluate_returns_iff_comparable_witness :
  rectangular Example.square ∧
  rectangular Example.holed ∧
  ((∃ m tr', evaluate Example.square Example.holed [] = (Returned m, tr'))
   ↔ comparable Example.square Example.holed).
Proof.
  assert (H1 : rectangular Example.square) by (repeat constructor).
  assert (H2 : rectangular Example.holed) by (repeat constructor).
  split; [exact H1|]. split; [exact H2|].
  exact (evaluate_returns_iff_comparable Example.square Example.holed [] H1 H2).
Defined.

Lemma iat_NaN_not_finite (df : DataFrame) (i j : nat) :
  iat df i j = Some NaN → ¬ all_finite df.
Proof.
  unfold iat, all_finite. intros H Hfin.
  destruct (rows df !! i) as [r|] eqn:Hr; [|done]. simpl in H.
  apply list_elem_of_lookup_2 in Hr. apply list_elem_of_lookup_2 in H.
  rewrite Forall_forall in Hfin. specialize (Hfin r Hr).
  rewrite Forall_forall in Hfin. by specialize (Hfin NaN H).
Qed.

(** A NaN in a cell of the prediction or of the ground truth makes
    [evaluate] raise a [ValueError]; it prints the error and no metrics. *)
Theorem evaluate_rejects_nan (gt pred : DataFrame) (tr : trace) (i j : nat) :
  iat gt i j = Some NaN ∨ iat pred i j = Some NaN →
  ∃ e,
    exn_class e = "ValueError" ∧
    evaluate gt pred tr =
      (Raised e, tr ++ [Print "Calculating evaluation metrics";
                        Print ("Error in evaluate: " +:+ exn_str e)]).
Proof.
  intros Hnan. rewrite evaluate_unfold.
  destruct (evaluate_pure gt pred) as [m|e] eqn:Hev.
  - apply evaluate_pure_Returned in Hev as (Hg & Hp & _).
    destruct Hnan as [H|H]; by apply iat_NaN_not_finite in H.
  - exists e. split; [by apply evaluate_pure_ValueError in Hev|done].
Qed.

Lemma evaluate_rejects_nan_witness :
  (iat Example.square 1 1 = Some NaN ∨ iat Example.holed 1 1 = Some NaN) ∧
  ∃ e,
    exn_class e = "ValueError" ∧
    evaluate Example.square Example.holed [] =
      (Raised e, [] ++ [Print "Calculating evaluation metrics";
                        Print ("Error in evaluate: " +:+ exn_str e)]).
Proof.
  assert (H : iat Example.square 1 1 = Some NaN ∨ iat Example.holed 1 1 = Some NaN)
    by (right; reflexivity).
  split; [exact H|].
  exact (evaluate_rejects_nan Example.square Example.holed [] 1 1 H).
Defined.

(** A ground truth without rows, as [dropna] leaves it when every row of
    the table has a missing value, makes [evaluate] raise a [ValueError]. *)
Theorem evaluate_rejects_empty (gt pred : DataFrame) (tr : trace) :
  rows gt = [] →
  ∃ e,
    exn_class e = "ValueError" ∧
    evaluate gt pred tr =
      (Raised e, tr ++ [Print "Calculating evaluation metrics";
                        Print ("Error in evaluate: " +:+ exn_str e)]).
Proof.
  intros Hrows. rewrite evaluate_unfold.
  destruct (evaluate_pure gt pred) as [m|e] eqn:Hev.
  - apply evaluate_pure_Returned in Hev as (_ & _ & _ & Hr & _).
    rewrite Hrows in Hr. simpl in Hr. lia.
  - exists e. split; [by apply evaluate_pure_ValueError in Hev|done].
Qed.

Lemma evaluate_rejects_empty_witness :
  rows (dropna (Example.frame_of_rows Example.targets [(0%nat, [Finite 1; NaN])])) = [] ∧
  ∃ e,
    exn_class e = "ValueError" ∧
    evaluate (dropna (Example.frame_of_rows Example.targets [(0%nat, [Finite 1; NaN])]))
             Example.single [] =
      (Raised e, [] ++ [Print "Calculating evaluation metrics";
                        Print ("Error in evaluate: " +:+ exn_str e)]).
Proof.
  assert (H : rows (dropna (Example.frame_of_rows Example.targets
                              [(0%nat, [Finite 1; NaN])])) = []) by reflexivity.
  split; [exact H|].
  exact (evaluate_rejects_empty _ Example.single [] H).
Defined.

(** ** The mean squared error *)

Lemma Qsum_app (l k : list Q) : Qsum (l ++ k) == Qsum l + Qsum k.
Proof.
  induction l as [|x l IH]; simpl; [ring|].
  fold (Qsum (l ++ k)). fold (Qsum l). rewrite IH. ring.
Qed.

Lemma Qsum_Forall2 (l k : list Q) : Forall2 Qeq l k → Qsum l == Qsum k.
Proof.
  induction 1 as [|x y l k Hxy _ IH]; simpl; [reflexivity|].
  fold (Qsum l). fold (Qsum k). by rewrite Hxy, IH.
Qed.

Lemma Qsum_map_ext {A : Type} (f g : A → Q) (l : list A) :
  (∀ x, f x == g x) → Qsum (map f l) == Qsum (map g l).
Proof.
  intros H. induction l as [|x l IH]; simpl; [reflexivity|].
  fold (Qsum (map f l)). fold (Qsum (map g l)). by rewrite H, IH.
Qed.

Lemma Qsum_map_plus {A : Type} (f g : A → Q) (l : list A) :
  Qsum (map (λ x, f x + g x) l) == Qsum (map f l) + Qsum (map g l).
Proof.
  induction l as [|x l IH]; simpl; [ring|].
  fold (Qsum (map (λ x, f x + g x) l)). fold (Qsum (map f l)). fold (Qsum (map g l)).
  rewrite IH. ring.
Qed.

Lemma Qsum_map_div {A : Type} (f : A → Q) (c : Q) (l : list A) :
  Qsum (map (λ x, f x / c) l) == Qsum (map f l) / c.
Proof.
  induction l as [|x l IH]; simpl.
  - unfold Qdiv. ring.
  - fold (Qsum (map (λ x, f x / c) l)). fold (Qsum (map f l)). rewrite IH.
    unfold Qdiv. ring.
Qed.



Lemma map_nth_seq (r : list Q) : map (λ j, nth j r 0) (seq 0 (length r)) = r.
Proof.
  induction r as [|x r IH]; [done|]. simpl. f_equal.
  rewrite <- seq_shift, map_map. exact IH.
Qed.

(** Summing a matrix column by column or row by row is the same. *)
Lemma Qsum_columns (a : list (list Q)) (k : nat) :
  Forall (λ r, length r = k) a →
  Qsum (map (λ j, Qsum (column j a)) (seq 0 k)) == Qsum (mjoin a).
Proof.
  induction 1 as [|r a Hr _ IH].
  - simpl. apply Qsum_zero, Forall_forall. intros x Hx.
    apply list_elem_of_fmap in Hx as (j & -> & _). reflexivity.
  - change (mjoin (r :: a)) with (r ++ mjoin a). rewrite Qsum_app, <- IH.
    rewrite <- (map_nth_seq r) at 1. rewrite Hr.
    rewrite <- Qsum_map_plus. apply Qsum_map_ext. intros j. reflexivity.
Qed.

Lemma nth_squared_errors (j : nat) (r s : list Q) :
  length r = length s →
  (nth j r 0 - nth j s 0) ^ 2 == nth j (squared_errors r s) 0.
Proof.
  unfold squared_errors. revert j s. induction r as [|x r IH]; intros j [|y s] Hlen;
    try done.
  - destruct j; simpl; ring.
  - destruct j as [|j]; simpl; [reflexivity|]. apply IH. simpl in Hlen. lia.
Qed.

Lemma column_squared_errors (j : nat) (a b : list (list Q)) :
  Forall2 (λ r s, length r = length s) a b →
  Forall2 Qeq (squared_errors (column j a) (column j b))
              (column j (zip_with squared_errors a b)).
Proof.
  unfold column. induction 1 as [|r s a b Hrs _ IH]; simpl; constructor; [|exact IH].
  by apply nth_squared_errors.
Qed.

Lemma squares_of_differences (a b : list (list Q)) :
  Forall2 Qeq (mjoin (zip_with squared_errors a b))
              (map (λ d, d ^ 2) (mjoin (zip_with (zip_with Qminus) b a))).
Proof.
  revert b. induction a as [|r a IH]; intros [|s b]; simpl; try constructor.
  rewrite fmap_app. apply Forall2_app; [|apply IH]. clear IH.
  unfold squared_errors. revert s. induction r as [|x r IH]; intros [|y s]; simpl;
    constructor; [|apply IH].
  simpl. ring.
Qed.

Lemma same_widths (a b : list (list Q)) (k : nat) :
  length a = length b →
  Forall (λ r, length r = k) a → Forall (λ r, length r = k) b →
  Forall2 (λ r s, length r = length s) a b.
Proof.
  intros Hlen Ha Hb. apply Forall2_same_length_lookup. split; [done|].
  intros i r s Hr Hs. apply list_elem_of_lookup_2 in Hr, Hs.
  rewrite Forall_forall in Ha, Hb. by rewrite (Ha r Hr), (Hb s Hs).
Qed.

Lemma zip_with_squared_errors_width (a b : list (list Q)) (k : nat) :
  Forall (λ r, length r = k) a → Forall (λ r, length r = k) b →
  Forall (λ r, length r = k) (zip_with squared_errors a b).
Proof.
  intros Ha Hb. apply Forall_forall. intros x Hx.
  apply elem_of_lookup_zip_with in Hx as (i & r & s & -> & Hr & Hs).
  apply list_elem_of_lookup_2 in Hr, Hs. rewrite Forall_forall in Ha, Hb.
  unfold squared_errors. rewrite length_zip_with, (Ha r Hr), (Hb s Hs). lia.
Qed.

Lemma mse_of_matrices (a b : list (list Q)) (n k : nat) :
  length a = n → length b = n →
  Forall (λ r, length r = k) a → Forall (λ r, length r = k) b →
  (1 ≤ n)%nat → (1 ≤ k)%nat →
  average (map (λ j, average (squared_errors (column j a) (column j b))) (seq 0 k))
  == Qsum (map (λ d, d ^ 2) (mjoin (zip_with (zip_with Qminus) b a)))
     / inject_Z (Z.of_nat (n * k)).
Proof.
  intros Ha Hb Hwa Hwb Hn Hk.
  pose proof (inject_Z_of_nat_nonzero n Hn) as Hn0.
  pose proof (inject_Z_of_nat_nonzero k Hk) as Hk0.
  unfold average at 1. rewrite length_map, length_seq.
  rewrite (Qsum_map_ext _ (λ j, Qsum (column j (zip_with squared_errors a b))
                                / inject_Z (Z.of_nat n))).
  2: { intros j. unfold average, squared_errors, column.
       rewrite length_zip_with, !length_map, Ha, Hb, Nat.min_id.
       fold (column j a) (column j b). fold (squared_errors (column j a) (column j b)).
       fold (column j (zip_with squared_errors a b)).
       rewrite (Qsum_Forall2 _ _ (column_squared_errors j a b
                  (same_widths a b k ltac:(congruence) Hwa Hwb))).
       reflexivity. }
  rewrite Qsum_map_div.
  rewrite (Qsum_columns _ k (zip_with_squared_errors_width _ _ _ Hwa Hwb)).
  rewrite (Qsum_Forall2 _ _ (squares_of_differences a b)).
  rewrite Nat2Z.inj_mul, inject_Z_mult. field. split; assumption.
Qed.

Lemma numbers_width (df : DataFrame) :
  rectangular df → Forall (λ r, length r = length (columns df)) (numbers df).
Proof.
  unfold rectangular, numbers. intros H. apply Forall_forall. intros x Hx.
  apply list_elem_of_fmap in Hx as (r & -> & Hr). rewrite length_map.
  rewrite Forall_forall in H. by apply H.
Qed.

Lemma numbers_length (df : DataFrame) : length (numbers df) = length (rows df).
Proof. unfold numbers. apply length_map. Qed.

Lemma mean_squared_error_comparable (gt pred : DataFrame) :
  comparable gt pred →
  ∃ q, mean_squared_error gt pred = Returned (Finite q) ∧
       q == mean_squared_difference gt pred.
Proof.
  intros [Hrg Hrp Hg Hp Hs Hr Hc]. unfold mean_squared_error.
  rewrite (check_reg_targets_ok gt pred Hg Hp Hs Hr Hc). simpl.
  eexists. split; [reflexivity|].
  unfold df_shape in Hs. injection Hs as Hrows Hcols.
  unfold mean_squared_difference, differences.
  apply mse_of_matrices; try done.
  - apply numbers_length.
  - rewrite numbers_length. done.
  - by apply numbers_width.
  - rewrite Hcols. by apply numbers_width.
Qed.








(** ** The coefficient of determination *)







(** ** The extreme errors and the other metrics *)

Lemma fold_extrema (gt pred : DataFrame) (d : Q) (ds : list Q) :
  all_finite gt → all_finite pred →
  differences gt pred = d :: ds →
  maximum_error gt pred (fold_left Qmax ds d) ∧ minimum_error gt pred (fold_left Qmin ds d).
Proof.
  intros Hg Hp Hd. unfold maximum_error, minimum_error, error_at.
  setoid_rewrite <- (elem_of_differences gt pred _ Hg Hp). rewrite Hd.
  repeat split.
  - apply fold_Qmax_elem.
  - intros x. apply fold_Qmax_upper.
  - apply fold_Qmin_elem.
  - intros x. apply fold_Qmin_lower.
Qed.






(** *** The two frames in the other order *)

Lemma comparable_sym (gt pred : DataFrame) : comparable gt pred → comparable pred gt.
Proof.
  intros [Hrg Hrp Hg Hp Hs Hr Hc]. unfold df_shape in Hs. injection Hs as Hrows Hcols.
  split; try done.
  - unfold df_shape. congruence.
  - by rewrite <- Hrows.
  - by rewrite <- Hcols.
Qed.

Lemma error_at_swap (gt pred : DataFrame) (d : Q) :
  error_at pred gt d → ∃ x, error_at gt pred x ∧ x == - d.
Proof.
  intros (i & j & p & g & Hp & Hg & ->). exists (g - p). split; [|ring].
  by exists i, j, g, p.
Qed.

Lemma squares_of_swapped (a b : list (list Q)) :
  Forall2 Qeq (map (λ d, d ^ 2) (mjoin (zip_with (zip_with Qminus) a b)))
              (map (λ d, d ^ 2) (mjoin (zip_with (zip_with Qminus) b a))).
Proof.
  revert b. induction a as [|r a IH]; intros [|s b]; simpl; try constructor.
  rewrite !fmap_app. apply Forall2_app; [|apply IH]. clear IH.
  revert s. induction r as [|x r IH]; intros [|y s]; simpl; constructor; [|apply IH].
  simpl. ring.
Qed.

Lemma mean_squared_difference_sym (gt pred : DataFrame) :
  df_shape gt = df_shape pred →
  mean_squared_difference pred gt == mean_squared_difference gt pred.
Proof.
  intros Hs. unfold df_shape in Hs. injection Hs as Hrows Hcols.
  unfold mean_squared_difference, differences.
  rewrite (Qsum_Forall2 _ _ (squares_of_swapped (numbers gt) (numbers pred))).
  rewrite Hrows, Hcols. reflexivity.
Qed.

(** With the prediction and the ground truth exchanged, [evaluate] returns
    the same [mse_score], and the two extreme errors exchanged and with the
    opposite sign. *)
Theorem evaluate_swapped_arguments (gt pred : DataFrame) (tr : trace) :
  comparable gt pred →
  ∃ m m' q q' hi lo hi' lo',
    evaluate gt pred tr = (Returned m, evaluate_trace tr m) ∧
    evaluate pred gt tr = (Returned m', evaluate_trace tr m') ∧
    dict_get "mse_score" m = Some (Finite q) ∧
    dict_get "mse_score" m' = Some (Finite q') ∧
    dict_get "pos_max_err" m = Some (Finite hi) ∧
    dict_get "neg_max_err" m = Some (Finite lo) ∧
    dict_get "pos_max_err" m' = Some (Finite hi') ∧
    dict_get "neg_max_err" m' = Some (Finite lo') ∧
    q' == q ∧ hi' == - lo ∧ lo' == - hi.
Proof.
  intros Hc. pose proof (comparable_sym _ _ Hc) as Hc'.
  destruct (evaluate_pure_comparable _ _ Hc) as (r2 & mse & d & ds & _ & Hmse & Hd & Hev).
  destruct (evaluate_pure_comparable _ _ Hc') as (r2' & mse' & d' & ds' & _ & Hmse' & Hd' & Hev').
  destruct (mean_squared_error_comparable _ _ Hc) as (q & Hq & Hval).
  destruct (mean_squared_error_comparable _ _ Hc') as (q' & Hq' & Hval').
  rewrite Hq in Hmse. injection Hmse as <-. rewrite Hq' in Hmse'. injection Hmse' as <-.
  destruct (fold_extrema gt pred d ds) as [[Hhi Hhib] [Hlo Hlob]];
    [apply Hc|apply Hc|done|].
  destruct (fold_extrema pred gt d' ds') as [[Hhi' Hhib'] [Hlo' Hlob']];
    [apply Hc|apply Hc|done|].
  eexists _, _, q, q', _, _, _, _. rewrite !evaluate_unfold, Hev, Hev'.
  do 8 (split; [done|]). split; [|split].
  - rewrite Hval, Hval'. apply mean_squared_difference_sym, Hc.
  - apply Qle_antisym.
    + apply error_at_swap in Hhi' as (x & Hx & Hneg). apply Hlob in Hx. lra.
    + destruct (error_at_swap pred gt _ Hlo) as (x & Hx & Hneg). apply Hhib' in Hx. lra.
  - apply Qle_antisym.
    + destruct (error_at_swap pred gt _ Hhi) as (x & Hx & Hneg). apply Hlob' in Hx. lra.
    + apply error_at_swap in Hlo' as (x & Hx & Hneg). apply Hhib in Hx. lra.
Qed.

Lemma evaluate_swapped_arguments_witness :
  comparable Example.square Example.shifted ∧
  ∃ m m' q q' hi lo hi' lo',
    evaluate Example.square Example.shifted [] = (Returned m, evaluate_trace [] m) ∧
    evaluate Example.shifted Example.square [] = (Returned m', evaluate_trace [] m') ∧
    dict_get "mse_score" m = Some (Finite q) ∧
    dict_get "mse_score" m' = Some (Finite q') ∧
    dict_get "pos_max_err" m = Some (Finite hi) ∧
    dict_get "neg_max_err" m = Some (Finite lo) ∧
    dict_get "pos_max_err" m' = Some (Finite hi') ∧
    dict_get "neg_max_err" m' = Some (Finite lo') ∧
    q' == q ∧ hi' == - lo ∧ lo' == - hi.
Proof.
  assert (H : comparable Example.square Example.shifted)
    by (split; try (vm_compute; lia); repeat constructor).
  split; [exact H|].
  exact (evaluate_swapped_arguments Example.square Example.shifted [] H).
Defined.

(** ** The run when a task fails *)

Lemma data_collect_calls (util : Util) (context : Context) (tr : trace) :
  ∃ cs, calls_of (snd (data_collect util context tr)) = calls_of tr ++ cs ∧
        cs `prefix_of` fetch_calls context.
Proof.
  pose proof (data_collect_unfold util context tr) as H. cbv zeta in H. rewrite H.
  destruct (_GET_PREDICTION util _ _ _) as [[pred uid]|e].
  - exists (fetch_calls context). split; [|done].
    destruct (_GET_QA util _ _ _) as [qa|e]; [destruct (getitem qa _) as [gt|e]|];
      cbn [snd]; rewrite !calls_of_app, ?calls_of_uid_check; by rewrite app_nil_r.
  - eexists. cbn [snd]. rewrite !calls_of_app. split; [reflexivity|].
    by apply prefix_cons, prefix_nil.
Qed.

Lemma evaluate_calls (gt pred : DataFrame) (tr : trace) :
  calls_of (snd (evaluate gt pred tr)) = calls_of tr.
Proof.
  rewrite evaluate_unfold. destruct (evaluate_pure gt pred); cbn [snd];
    rewrite calls_of_app; apply app_nil_r.
Qed.

Lemma collect_metric_calls (util : Util) (context : Context) (m : metrics) (tr : trace) :
  calls_of (snd (collect_metric util context m tr))
  = calls_of tr ++ [LOG_METRIC (model_id (params context)) m].
Proof.
  pose proof (collect_metric_unfold util context m tr) as H. cbv zeta in H. rewrite H.
  destruct (_LOG_METRIC util _ _ _); cbn [snd]; by rewrite !calls_of_app.
Qed.

Lemma send_result_calls (util : Util) (context : Context) (m : metrics) (tr : trace) :
  calls_of (snd (send_result util context m tr))
  = calls_of tr ++ [SEND_RESULT (model_id (params context)) (dag_run context) m].
Proof.
  pose proof (send_result_unfold util context m tr) as H. cbv zeta in H. rewrite H.
  destruct (_SEND_RESULT util _ _ _ _); cbn [snd]; by rewrite !calls_of_app.
Qed.

(** When [evaluate] does not succeed, because it fails or because
    [data_collect] has failed, neither [collect_metric] nor [send_result]
    runs: [_LOG_METRIC] and [_SEND_RESULT] are not called. *)
Theorem no_metrics_nothing_sent (util : Util) (context : Context) (o : order)
    (tr : trace) :
  (∀ m, evaluate_state (fst (model_evaluate util context o tr)) ≠ success m) →
  collect_metric_state (fst (model_evaluate util context o tr)) = upstream_failed ∧
  send_result_state (fst (model_evaluate util context o tr)) = upstream_failed ∧
  ∃ cs, calls_of (snd (model_evaluate util context o tr)) = calls_of tr ++ cs ∧
        cs `prefix_of` fetch_calls context.
Proof.
  unfold model_evaluate, run_downstream, run_task.
  destruct (data_collect_calls util context tr) as (cs & Hcs & Hpre).
  destruct (data_collect util context tr) as [[d|e] tr1] eqn:Hdc; cbn [snd] in Hcs.
  - pose proof (evaluate_calls (ground_truth d) (prediction d) tr1) as Hev.
    destruct (evaluate (ground_truth d) (prediction d) tr1) as [[m|e] tr2]; cbn [snd] in Hev.
    + intros H. exfalso. destruct o.
      * destruct (collect_metric util context m tr2) as [[r1|e1] tr3];
          destruct (send_result util context m tr3) as [[r2|e2] tr4]; by apply (H m).
      * destruct (send_result util context m tr2) as [[r2|e2] tr3];
          destruct (collect_metric util context m tr3) as [[r1|e1] tr4]; by apply (H m).
    + intros _.
      destruct o; cbn [fst snd collect_metric_state send_result_state];
        (split; [done|]); (split; [done|]); exists cs; by rewrite Hev.
  - intros _.
    destruct o; cbn [fst snd collect_metric_state send_result_state];
      (split; [done|]); (split; [done|]); by exists cs.
Qed.

Lemma no_metrics_nothing_sent_witness :
  let util := Example.util Example.square ["u0"; "u1"] Example.qa_missing in
  (∀ m, evaluate_state (fst (model_evaluate util Example.context collect_metric_first []))
        ≠ success m) ∧
  collect_metric_state (fst (model_evaluate util Example.context collect_metric_first []))
    = upstream_failed ∧
  send_result_state (fst (model_evaluate util Example.context collect_metric_first []))
    = upstream_failed ∧
  ∃ cs, calls_of (snd (model_evaluate util Example.context collect_metric_first []))
        = calls_of [] ++ cs ∧
        cs `prefix_of` fetch_calls Example.context.
Proof.
  intros util.
  assert (H : ∀ m, evaluate_state
                     (fst (model_evaluate util Example.context collect_metric_first []))
                   ≠ success m) by (intros m; vm_compute; discriminate).
  split; [exact H|].
  exact (no_metrics_nothing_sent util Example.context collect_metric_first [] H).
Defined.

(** Once [evaluate] has returned the metrics [m], both [_LOG_METRIC] and
    [_SEND_RESULT] are called with [m], once each, in either order of the
    two tasks and whether or not the other call has failed. *)
Theorem metrics_sent_to_both (util : Util) (context : Context) (o : order)
    (tr : trace) (m : metrics) :
  evaluate_state (fst (model_evaluate util context o tr)) = success m →
  calls_of (snd (model_evaluate util context o tr))
  = calls_of tr ++ fetch_calls context ++ downstream_calls context o m ∧
  collect_metric_state (fst (model_evaluate util context o tr)) ≠ upstream_failed ∧
  send_result_state (fst (model_evaluate util context o tr)) ≠ upstream_failed.
Proof.
  unfold model_evaluate, run_downstream, run_task.
  destruct (data_collect util context tr) as [[d|e] tr1] eqn:Hdc; [|by destruct o].
  apply data_collect_events in Hdc as (evs1 & -> & Hc1 & _).
  pose proof (evaluate_calls (ground_truth d) (prediction d) (tr ++ evs1)) as Hev.
  destruct (evaluate (ground_truth d) (prediction d) (tr ++ evs1)) as [[m'|e] tr2];
    [|by destruct o].
  cbn [snd] in Hev. rewrite calls_of_app, Hc1 in Hev. fold (fetch_calls context) in Hev.
  pose proof (collect_metric_calls util context m') as Hcm.
  pose proof (send_result_calls util context m') as Hsr.
  destruct o.
  - specialize (Hcm tr2).
    destruct (collect_metric util context m' tr2) as [[r1|e1] tr3]; cbn [snd] in Hcm;
      specialize (Hsr tr3);
      destruct (send_result util context m' tr3) as [[r2|e2] tr4]; cbn [snd] in Hsr;
      cbn [fst snd evaluate_state collect_metric_state send_result_state];
      intros [= ->]; rewrite Hsr, Hcm, Hev, <- !app_assoc; done.
  - specialize (Hsr tr2).
    destruct (send_result util context m' tr2) as [[r2|e2] tr3]; cbn [snd] in Hsr;
      specialize (Hcm tr3);
      destruct (collect_metric util context m' tr3) as [[r1|e1] tr4]; cbn [snd] in Hcm;
      cbn [fst snd evaluate_state collect_metric_state send_result_state];
      intros [= ->]; rewrite Hcm, Hsr, Hev, <- !app_assoc; done.
Qed.

Lemma metrics_sent_to_both_witness :
  ∃ m,
    evaluate_state (fst (model_evaluate Example.util_no_log Example.context
                           collect_metric_first [])) = success m ∧
    calls_of (snd (model_evaluate Example.util_no_log Example.context
                     collect_metric_first []))
    = calls_of [] ++ fetch_calls Example.context
        ++ downstream_calls Example.context collect_metric_first m ∧
    collect_metric_state (fst (model_evaluate Example.util_no_log Example.context
                                 collect_metric_first [])) ≠ upstream_failed ∧
    send_result_state (fst (model_evaluate Example.util_no_log Example.context
                              collect_metric_first [])) ≠ upstream_failed.
Proof.
  eexists. split; [reflexivity|].
  exact (metrics_sent_to_both Example.util_no_log Example.context collect_metric_first []
           _ eq_refl).
Defined.

(** A failure of [collect_metric] does not keep [send_result] from running:
    here the metrics endpoint refuses and the result is sent all the same. *)
Lemma send_result_after_failed_collect_metric :
  collect_metric_state (fst (model_evaluate Example.util_no_log Example.context
                               collect_metric_first [])) = failed Example.refused ∧
  send_result_state (fst (model_evaluate Example.util_no_log Example.context
                            collect_metric_first [])) = success "sent".
Proof. split; reflexivity. Qed.

(** ** From the fetched table to the metrics *)

(** When the target columns of the fetched table hold no NaN and have the
    shape of the prediction, with at least one cell, the run gets through
    [evaluate]: [data_collect] hands on the prediction and these columns
    unchanged, and [evaluate] succeeds with their metrics. *)
Theorem complete_table_is_evaluated (util : Util) (context : Context) (o : order)
    (tr : trace) (pred : DataFrame) (uid : list identifier) (qa : qa_table)
    (gt : DataFrame) :
  fetched util context tr pred uid qa →
  getitem qa (targets_name (params context)) = Returned gt →
  comparable gt pred →
  ∃ m,
    evaluate_pure gt pred = Returned m ∧
    data_collect_state (fst (model_evaluate util context o tr))
      = success {| prediction := pred; ground_truth := gt |} ∧
    evaluate_state (fst (model_evaluate util context o tr)) = success m.
Proof.
  intros Hf Hget Hc.
  destruct (evaluate_pure_comparable _ _ Hc) as (r2 & mse & d & ds & _ & _ & _ & Hev).
  eexists. split; [exact Hev|].
  assert (Hdrop : dropna gt = gt).
  { unfold dropna. rewrite filter_complete_all; [by destruct gt|apply Hc]. }
  unfold model_evaluate, run_downstream, run_task.
  rewrite (data_collect_returns _ _ _ _ _ _ _ Hf Hget), Hdrop.
  cbn [ground_truth prediction]. rewrite evaluate_unfold, Hev.
  destruct o.
  - destruct (collect_metric util context _ _) as [[r1|e1] tr3];
      destruct (send_result util context _ _) as [[r2'|e2] tr4]; by split.
  - destruct (send_result util context _ _) as [[r2'|e2] tr3];
      destruct (collect_metric util context _ _) as [[r1|e1] tr4]; by split.
Qed.

Lemma complete_table_is_evaluated_witness :
  let util := Example.util Example.shifted ["u0"; "u1"] Example.qa_square in
  fetched util Example.context [] Example.shifted ["u0"; "u1"] Example.qa_square ∧
  getitem Example.qa_square (targets_name (params Example.context))
    = Returned Example.square ∧
  comparable Example.square Example.shifted ∧
  ∃ m,
    evaluate_pure Example.square Example.shifted = Returned m ∧
    data_collect_state (fst (model_evaluate util Example.context send_result_first []))
      = success {| prediction := Example.shifted; ground_truth := Example.square |} ∧
    evaluate_state (fst (model_evaluate util Example.context send_result_first []))
      = success m.
Proof.
  intros util.
  assert (H1 : fetched util Example.context [] Example.shifted ["u0"; "u1"]
                 Example.qa_square) by (split; reflexivity).
  assert (H2 : getitem Example.qa_square (targets_name (params Example.context))
               = Returned Example.square) by reflexivity.
  assert (H3 : comparable Example.square Example.shifted)
    by (split; try (vm_compute; lia); repeat constructor).
  split; [exact H1|]. split; [exact H2|]. split; [exact H3|].
  exact (complete_table_is_evaluated util Example.context send_result_first []
           Example.shifted ["u0"; "u1"] Example.qa_square Example.square H1 H2 H3).
Defined.
